(** * Pokemon MCP server: tool handlers of [src/server.ts] and of the
    multi-tool variant, embedded as Rocq functions.

    Conventions of the embedding.

    - A JavaScript string is a [string]; the characters are ASCII (the
      upstream slugs, type names and URLs are).  [toLowerCase] and
      [toUpperCase] act on the letters A-Z / a-z, the class [\s] is the
      six ASCII white-space characters, and lengths count characters.  On
      other text the language differs (it maps a sharp s to two letters,
      and counts UTF-16 units), so a statement about the case, the white
      space or the length of a text takes [Domain.ascii] of it as a
      hypothesis.
    - A JavaScript number that the code reads from JSON or from the tool
      arguments is an integer, a [Z].  The language computes on doubles:
      it prints an integer digit by digit, and adds integers exactly, below
      2^53 in size ([Domain.integer]), and prints a tenth of an integer
      exactly below 10^15 ([Domain.small]).  A statement that spells out a
      numeral or a sum takes these bounds as hypotheses.
    - An array is a [list]; [slice] takes its two indices as [Z] and has
      the clamping of the language written out.
    - [await fetch(url)] consults a [World]; a handler is a computation in
      the monad [M], which threads the log of requested URLs and either
      returns or throws. *)

From Stdlib Require Import String Ascii List ZArith Lia Bool.
From Stdlib Require Import DecimalString DecimalPos DecimalZ.
Import ListNotations.

Local Open Scope string_scope.
Local Open Scope Z_scope.

(** ** The language's string and array primitives *)

Module JS.

Definition is_upper (c : ascii) : bool :=
  let n := nat_of_ascii c in (Nat.leb 65 n && Nat.leb n 90)%bool.

Definition is_lower (c : ascii) : bool :=
  let n := nat_of_ascii c in (Nat.leb 97 n && Nat.leb n 122)%bool.

(** The class [\s] on ASCII: tab, line feed, vertical tab, form feed,
    carriage return and space.  The case mappings below and this class are
    those of the language on the characters of code below 128. *)
Definition is_space (c : ascii) : bool :=
  let n := nat_of_ascii c in ((Nat.leb 9 n && Nat.leb n 13) || Nat.eqb n 32)%bool.

Definition lower_char (c : ascii) : ascii :=
  if is_upper c then ascii_of_nat (nat_of_ascii c + 32) else c.

Definition upper_char (c : ascii) : ascii :=
  if is_lower c then ascii_of_nat (nat_of_ascii c - 32) else c.

Fixpoint map_chars (f : ascii -> ascii) (s : string) : string :=
  match s with
  | EmptyString => EmptyString
  | String c s' => String (f c) (map_chars f s')
  end.

Definition toLowerCase : string -> string := map_chars lower_char.
Definition toUpperCase : string -> string := map_chars upper_char.

(** [str.charAt(0)]: the first character as a string, or the empty string. *)
Definition charAt0 (s : string) : string :=
  match s with
  | EmptyString => EmptyString
  | String c _ => String c EmptyString
  end.

(** [str.slice(1)]. *)
Definition slice1 (s : string) : string :=
  match s with
  | EmptyString => EmptyString
  | String _ s' => s'
  end.

(** [str.replace(/\s+/g, '-')]: every maximal run of white space becomes one
    hyphen.  [in_run] tells that the previous character was white space. *)
Fixpoint replace_ws_from (in_run : bool) (s : string) : string :=
  match s with
  | EmptyString => EmptyString
  | String c s' =>
      if is_space c
      then if in_run then replace_ws_from true s'
           else String "-" (replace_ws_from true s')
      else String c (replace_ws_from false s')
  end.

Definition replace_ws : string -> string := replace_ws_from false.

(** [str.split(sep)] for a one-character separator. *)
Fixpoint split (sep : ascii) (s : string) : list string :=
  match s with
  | EmptyString => [EmptyString]
  | String c s' =>
      if Ascii.eqb c sep then EmptyString :: split sep s'
      else match split sep s' with
           | h :: t => String c h :: t
           | [] => [String c EmptyString]
           end
  end.

(** [arr.join(sep)]. *)
Fixpoint join (sep : string) (l : list string) : string :=
  match l with
  | [] => EmptyString
  | [x] => x
  | x :: rest => x ++ sep ++ join sep rest
  end.

(** [s.repeat(n)]. *)
Fixpoint repeat (s : string) (n : nat) : string :=
  match n with
  | O => EmptyString
  | S n' => s ++ repeat s n'
  end.

(** [s.padEnd(n)]: spaces are appended up to length [n]; the length is that
    of the language when [Domain.ascii s]. *)
Definition padEnd (n : nat) (s : string) : string :=
  s ++ repeat " " (n - String.length s).

(** [arr.slice(start, end)], with the relative indices of the language. *)
Definition slice {A : Type} (l : list A) (start end_ : Z) : list A :=
  let len := Z.of_nat (List.length l) in
  let k := if start <? 0 then Z.max (len + start) 0 else Z.min start len in
  let final := if end_ <? 0 then Z.max (len + end_) 0 else Z.min end_ len in
  firstn (Z.to_nat (final - k)) (skipn (Z.to_nat k) l).

(** [`${n}`] for an integer: its decimal digits, which is what the language
    prints when [Domain.integer n]. *)
Definition num_to_string (n : Z) : string :=
  NilZero.string_of_int (Z.to_int n).

(** [`${n / 10}`] for an integer [n]: the quotient, then the tenths digit
    when it is not zero, which is what the language prints when
    [Domain.small n]. *)
Definition tenths_to_string (n : Z) : string :=
  let a := Z.abs n in
  let q := a / 10 in
  let r := a mod 10 in
  (if n <? 0 then "-" else "")
  ++ num_to_string q
  ++ (if r =? 0 then "" else "." ++ num_to_string r).

(** [`${v}`] for a value that may be [undefined]. *)
Definition opt_to_string (v : option string) : string :=
  match v with
  | Some s => s
  | None => "undefined"
  end.

End JS.

(** ** The domain on which the embedding is the language *)

Module Domain.

(** A character of code below 128. *)
Definition ascii_char (c : ascii) : bool := Nat.ltb (nat_of_ascii c) 128.

(** A text of such characters. *)
Fixpoint ascii (s : string) : bool :=
  match s with
  | EmptyString => true
  | String c s' => ascii_char c && ascii s'
  end.


(** An integer that a double holds exactly with its neighbours:
    [Number.isSafeInteger]. *)
Definition integer (n : Z) : bool := Z.abs n <? 2 ^ 53.

(** An integer whose tenth has at most 15 significant digits. *)
Definition small (n : Z) : bool := Z.abs n <? 10 ^ 15.

End Domain.

(** ** Shared helpers of the two source files *)

(** [const capitalize = (str) => str.charAt(0).toUpperCase() + str.slice(1)] *)
Definition capitalize (str : string) : string :=
  JS.toUpperCase (JS.charAt0 str) ++ JS.slice1 str.

Definition dquote : string := String "034"%char EmptyString.
Definition newline : string := String "010"%char EmptyString.
Definition bullet : string := "•".

(** ** The upstream service and the effects of a handler *)

(** A thrown value: an instance of [Error] (also [TypeError], [SyntaxError]
    and the validation library's error) with its [message], or a value that
    is no [Error]. *)
Inductive Exn : Type :=
| ErrorObject (message : string)
| NonError.

Module Upstream.

(** An entry of a type or generation listing: [{ name, url }]. *)
Record Member : Type := { member_name : string; member_url : string }.

(** A node of an evolution chain: [{ species: { name }, evolves_to }]. *)
#[warnings="-register-all"] Inductive EvolutionNode : Type :=
| Link (species_name : string) (evolves_to : list EvolutionNode).

(** The fields that the handlers read of a [/pokemon/{slug}] document;
    [types] holds each [type.name], [stats] each [base_stat]. *)
Record PokemonDoc : Type := {
  id : Z;
  name : string;
  height : Z;
  weight : Z;
  types : list string;
  stats : list Z;
  species_url : string
}.

(** The parsed JSON bodies, by the fields they carry. *)
Inductive Document : Type :=
| DPokemon (p : PokemonDoc)
| DType (pokemon : list Member)
| DGeneration (pokemon_species : list Member)
| DSpecies (evolution_chain_url : string)
| DEvolutionChain (chain : EvolutionNode).

(** [response.json()] rejects on a body that is not JSON. *)
Inductive Body : Type :=
| NotJson (syntax_error_message : string)
| Json (d : Document).

Record Response : Type := { status : Z; body : Body }.

(** [response.ok]: the status is in the range 200-299. *)
Definition ok (r : Response) : bool :=
  (200 <=? status r) && (status r <=? 299).

(** [fetch(url)] resolves with a response, whatever its status, or rejects
    (DNS, timeout, connection refused). *)
Inductive FetchResult : Type :=
| Resolved (r : Response)
| Rejected (e : Exn).

End Upstream.

(** What a handler cannot compute by itself: the answer of the upstream to
    a URL, the message of the engine's [TypeError] for reading a property
    of [undefined], and the message of the validation library's error. *)
Record World : Type := {
  fetch : string -> Upstream.FetchResult;
  type_error_message : string -> string;
  zod_error_message : Upstream.Document -> string
}.

Inductive Outcome (A : Type) : Type :=
| Returned (a : A)
| Thrown (e : Exn).
Arguments Returned {A} a.
Arguments Thrown {A} e.

(** A computation reads and extends the log of requested URLs. *)
Definition M (A : Type) : Type := list string -> Outcome A * list string.

Definition ret {A} (a : A) : M A := fun log => (Returned a, log).

Definition throw {A} (e : Exn) : M A := fun log => (Thrown e, log).

Definition bind {A B} (m : M A) (k : A -> M B) : M B :=
  fun log =>
    match m log with
    | (Returned a, log') => k a log'
    | (Thrown e, log') => (Thrown e, log')
    end.

(** [try { body } catch (error) { handler }] *)
Definition try_catch {A} (body : M A) (handler : Exn -> M A) : M A :=
  fun log =>
    match body log with
    | (Returned a, log') => (Returned a, log')
    | (Thrown e, log') => handler e log'
    end.

Notation "x <- m ;; k" := (bind m (fun x => k))
  (at level 61, m at next level, right associativity).
Notation "m ;;; k" := (bind m (fun _ => k))
  (at level 61, right associativity).

(** [await fetch(url)] *)
Definition do_fetch (w : World) (url : string) : M Upstream.Response :=
  fun log =>
    match fetch w url with
    | Upstream.Resolved r => (Returned r, (log ++ [url])%list)
    | Upstream.Rejected e => (Thrown e, (log ++ [url])%list)
    end.

(** [await response.json()] *)
Definition response_json (r : Upstream.Response) : M Upstream.Document :=
  match Upstream.body r with
  | Upstream.NotJson m => throw (ErrorObject m)
  | Upstream.Json d => ret d
  end.

(** Running a handler from an empty log. *)
Definition run {A} (m : M A) : Outcome A * list string := m [].
Definition result_of {A} (m : M A) : Outcome A := fst (run m).
Definition requests_of {A} (m : M A) : list string := snd (run m).

(** A tool result: [{ content: [{ type: "text", text }], isError }]; a
    result without the [isError] field has [isError = false]. *)
Record Content : Type := { type : string; text : string }.
Record ToolResult : Type := { content : list Content; isError : bool }.

Definition api : string := "https://pokeapi.co/api/v2".

(** [error instanceof Error ? error.message : "Unknown error occurred"] *)
Definition errorMessage (error : Exn) : string :=
  match error with
  | ErrorObject message => message
  | NonError => "Unknown error occurred"
  end.

Definition success (t : string) : ToolResult :=
  {| content := [ {| type := "text"; text := t |} ]; isError := false |}.

Definition failure (t : string) : ToolResult :=
  {| content := [ {| type := "text"; text := t |} ]; isError := true |}.

(** ** [src/server.ts]: the single-lookup server *)

Module Server.

(** [type Pokemon = z.infer<typeof PokemonSchema>], with each element of
    [types] reduced to its [type.name]. *)
Record Pokemon : Type := {
  id : Z;
  name : string;
  height : Z;
  weight : Z;
  types : list string
}.

(** [PokemonSchema.parse(json)]: the five fields are kept, other keys are
    dropped; a document of another shape is refused with the library's
    error. *)
Definition PokemonSchema_parse (w : World) (json : Upstream.Document) : M Pokemon :=
  match json with
  | Upstream.DPokemon p =>
      ret {| id := Upstream.id p;
             name := Upstream.name p;
             height := Upstream.height p;
             weight := Upstream.weight p;
             types := Upstream.types p |}
  | _ => throw (ErrorObject (zod_error_message w json))
  end.

(** [name.toLowerCase().replace(/\s+/g, '-')] *)
Definition normalize (name : string) : string :=
  JS.replace_ws (JS.toLowerCase name).

(** The template of the last statement of [getPokemonInfo]'s [try] block. *)
Definition render (pokemon : Pokemon) : string :=
  let types := JS.join ", " (map capitalize (types pokemon)) in
  capitalize (name pokemon) ++ " (#" ++ JS.num_to_string (id pokemon) ++ ") - "
  ++ types ++ " type, " ++ JS.tenths_to_string (height pokemon) ++ "m tall, "
  ++ JS.tenths_to_string (weight pokemon) ++ "kg".

Definition getPokemonInfo (w : World) (name : string) : M string :=
  try_catch
    (let pokemonName := normalize name in
     response <- do_fetch w (api ++ "/pokemon/" ++ pokemonName) ;;
     (if negb (Upstream.ok response)
      then if Upstream.status response =? 404
           then throw (ErrorObject ("Pokémon " ++ dquote ++ name ++ dquote ++ " not found."))
           else throw (ErrorObject ("Failed to fetch Pokémon data: "
                                    ++ JS.num_to_string (Upstream.status response)))
      else ret tt) ;;;
     json <- response_json response ;;
     pokemon <- PokemonSchema_parse w json ;;
     ret (render pokemon))
    (fun error =>
       throw (match error with
              | ErrorObject _ => error
              | NonError => ErrorObject "Error fetching Pokémon information"
              end)).

(** The handler registered as [get_pokemon_pokedex_info]: its [try] block,
    then the whole handler. *)
Definition get_pokemon_pokedex_info_try (w : World) (name : string) : M ToolResult :=
  pokemon <- getPokemonInfo w name ;;
  ret (success pokemon).

Definition get_pokemon_pokedex_info (w : World) (name : string) : M ToolResult :=
  try_catch
    (get_pokemon_pokedex_info_try w name)
    (fun error =>
       ret (failure ("Error getting pokemon info: " ++ errorMessage error))).

End Server.

(** ** The multi-tool server *)

(** [async function handleApiError(response, context): Promise<never>] *)
Definition handleApiError {A} (response : Upstream.Response) (context : string) : M A :=
  if Upstream.status response =? 404
  then throw (ErrorObject (context ++ " not found."))
  else throw (ErrorObject ("Failed to fetch " ++ context ++ ": "
                           ++ JS.num_to_string (Upstream.status response))).

(** [if (!response.ok) { await handleApiError(response, context); }] *)
Definition check_ok (response : Upstream.Response) (context : string) : M unit :=
  if negb (Upstream.ok response) then handleApiError response context else ret tt.

(** Tools 1 and 2: the two listing searches. *)
Module Search.

(** An element of the mapped listing: [{ name, id }]; [id] is [undefined]
    when the URL has no segment at that place. *)
Record Entry : Type := { name : string; id : option string }.

(** [url.split('/').slice(-2, -1)[0]] *)
Definition id_of_url (url : string) : option string :=
  nth_error (JS.slice (JS.split "/" url) (-2) (-1)) 0.

(** The arrow function given to [map]:
    [p => ({ name: capitalize(p.name), id: p.url.split('/').slice(-2, -1)[0] })] *)
Definition entry (p : Upstream.Member) : Entry :=
  {| name := capitalize (Upstream.member_name p);
     id := id_of_url (Upstream.member_url p) |}.

(** [listing.slice(0, limit).map(...)] *)
Definition entries (listing : list Upstream.Member) (limit : Z) : list Entry :=
  map entry (JS.slice listing 0 limit).

(** [pokemon.map(p => `• ${p.name} (#${p.id})`).join('\n')] *)
Definition pokemonList (pokemon : list Entry) : string :=
  JS.join newline
    (map (fun p => bullet ++ " " ++ name p ++ " (#" ++ JS.opt_to_string (id p) ++ ")")
         pokemon).

(** The default of the destructured parameter: [limit = 20]. *)
Definition limit_or_default (limit : option Z) : Z :=
  match limit with
  | Some l => l
  | None => 20
  end.

(** Each handler is given as its [try] block, then the whole handler. *)
Definition search_pokemon_by_type_try (w : World) (type : string) (limit : Z)
  : M ToolResult :=
  response <- do_fetch w (api ++ "/type/" ++ JS.toLowerCase type) ;;
  check_ok response ("Type " ++ dquote ++ type ++ dquote) ;;;
  typeData <- response_json response ;;
  listing <- match typeData with
             | Upstream.DType l => ret l
             | _ => throw (ErrorObject (type_error_message w "slice"))
             end ;;
  let pokemon := entries listing limit in
  ret (success ("Found " ++ JS.num_to_string (Z.of_nat (List.length pokemon)) ++ " "
                ++ capitalize type ++ " type Pokemon:" ++ newline ++ newline
                ++ pokemonList pokemon)).

Definition search_pokemon_by_type (w : World) (type : string) (limit : option Z)
  : M ToolResult :=
  try_catch
    (search_pokemon_by_type_try w type (limit_or_default limit))
    (fun error =>
       ret (failure ("Error searching Pokemon by type: " ++ errorMessage error))).

Definition search_pokemon_by_generation_try (w : World) (generation : Z) (limit : Z)
  : M ToolResult :=
  response <- do_fetch w (api ++ "/generation/" ++ JS.num_to_string generation) ;;
  check_ok response ("Generation " ++ JS.num_to_string generation) ;;;
  genData <- response_json response ;;
  listing <- match genData with
             | Upstream.DGeneration l => ret l
             | _ => throw (ErrorObject (type_error_message w "slice"))
             end ;;
  let pokemon := entries listing limit in
  ret (success ("Found " ++ JS.num_to_string (Z.of_nat (List.length pokemon))
                ++ " Pokemon from Generation " ++ JS.num_to_string generation ++ ":"
                ++ newline ++ newline ++ pokemonList pokemon)).

Definition search_pokemon_by_generation (w : World) (generation : Z) (limit : option Z)
  : M ToolResult :=
  try_catch
    (search_pokemon_by_generation_try w generation (limit_or_default limit))
    (fun error =>
       ret (failure ("Error searching Pokemon by generation: " ++ errorMessage error))).

End Search.

(** Tool 3: the evolution chain. *)
Module Evolution.

(** [function parseEvolutionChain(chain, level = 0): string[]]; the inner
    [fix] is the [for ... of chain.evolves_to] loop with its accumulator
    [result]. *)
Fixpoint parseEvolutionChain (chain : Upstream.EvolutionNode) (level : nat)
  : list string :=
  match chain with
  | Upstream.Link species_name evolves_to =>
      let indent := JS.repeat "  " level in
      let pokemonName := capitalize species_name in
      let result := [indent ++ bullet ++ " " ++ pokemonName] in
      if Nat.ltb 0 (List.length evolves_to)
      then (fix loop (rest : list Upstream.EvolutionNode) (result : list string) :=
              match rest with
              | [] => result
              | evolution :: rest' =>
                  loop rest' (result ++ parseEvolutionChain evolution (level + 1))%list
              end) evolves_to result
      else result
  end.

Definition get_pokemon_evolution_chain_try (w : World) (name : string) : M ToolResult :=
  pokemonResponse <- do_fetch w (api ++ "/pokemon/" ++ JS.toLowerCase name) ;;
  check_ok pokemonResponse ("Pokemon " ++ dquote ++ name ++ dquote) ;;;
  pokemon <- response_json pokemonResponse ;;
  species_url <- match pokemon with
                 | Upstream.DPokemon p => ret (Upstream.species_url p)
                 | _ => throw (ErrorObject (type_error_message w "url"))
                 end ;;
  speciesResponse <- do_fetch w species_url ;;
  check_ok speciesResponse ("Species for " ++ dquote ++ name ++ dquote) ;;;
  species <- response_json speciesResponse ;;
  evolution_chain_url <- match species with
                         | Upstream.DSpecies u => ret u
                         | _ => throw (ErrorObject (type_error_message w "url"))
                         end ;;
  evolutionResponse <- do_fetch w evolution_chain_url ;;
  check_ok evolutionResponse ("Evolution chain for " ++ dquote ++ name ++ dquote) ;;;
  evolutionChain <- response_json evolutionResponse ;;
  chain <- match evolutionChain with
           | Upstream.DEvolutionChain c => ret c
           | _ => throw (ErrorObject (type_error_message w "species"))
           end ;;
  let evolutionTree := JS.join newline (parseEvolutionChain chain 0) in
  ret (success ("Evolution chain for " ++ capitalize name ++ ":" ++ newline ++ newline
                ++ evolutionTree)).

Definition get_pokemon_evolution_chain (w : World) (name : string) : M ToolResult :=
  try_catch
    (get_pokemon_evolution_chain_try w name)
    (fun error =>
       ret (failure ("Error getting evolution chain: " ++ errorMessage error))).

End Evolution.

(** Tool 4: the comparison table. *)
Module Compare.

Record Stats : Type := {
  hp : Z;
  attack : Z;
  defense : Z;
  specialAttack : Z;
  specialDefense : Z;
  speed : Z
}.

(** An element of [pokemonData]. *)
Record Entry : Type := {
  name : string;
  id : Z;
  types : string;
  stats : Stats;
  total : Z
}.

(** [data.stats[k].base_stat]: reading [base_stat] of a missing element
    throws. *)
Definition base_stat (w : World) (stats : list Z) (k : nat) : M Z :=
  match nth_error stats k with
  | Some v => ret v
  | None => throw (ErrorObject (type_error_message w "base_stat"))
  end.

(** The object literal pushed on [pokemonData], its fields evaluated in
    the order they are written. *)
Definition entry_of (w : World) (data : Upstream.PokemonDoc) : M Entry :=
  let name := capitalize (Upstream.name data) in
  let id := Upstream.id data in
  let types := JS.join ", " (map capitalize (Upstream.types data)) in
  hp <- base_stat w (Upstream.stats data) 0 ;;
  attack <- base_stat w (Upstream.stats data) 1 ;;
  defense <- base_stat w (Upstream.stats data) 2 ;;
  specialAttack <- base_stat w (Upstream.stats data) 3 ;;
  specialDefense <- base_stat w (Upstream.stats data) 4 ;;
  speed <- base_stat w (Upstream.stats data) 5 ;;
  let total := fold_left (fun sum stat => sum + stat) (Upstream.stats data) 0 in
  ret {| name := name; id := id; types := types;
         stats := {| hp := hp; attack := attack; defense := defense;
                     specialAttack := specialAttack;
                     specialDefense := specialDefense; speed := speed |};
         total := total |}.

(** The body of the first loop, for one [name]. *)
Definition fetch_entry (w : World) (name : string) : M Entry :=
  response <- do_fetch w (api ++ "/pokemon/" ++ JS.toLowerCase name) ;;
  check_ok response ("Pokemon " ++ dquote ++ name ++ dquote) ;;;
  data <- response_json response ;;
  match data with
  | Upstream.DPokemon p => entry_of w p
  | _ => throw (ErrorObject (type_error_message w "charAt"))
  end.

(** [for (const name of pokemon) { ...; pokemonData.push(...) }] *)
Fixpoint fetch_all (w : World) (pokemon : list string) (pokemonData : list Entry)
  : M (list Entry) :=
  match pokemon with
  | [] => ret pokemonData
  | name :: rest =>
      entry <- fetch_entry w name ;;
      fetch_all w rest (pokemonData ++ [entry])%list
  end.

Definition header : string :=
  "Pokemon Comparison:" ++ newline ++ newline
  ++ JS.padEnd 15 "Name" ++ JS.padEnd 20 "Type" ++ JS.padEnd 5 "HP"
  ++ JS.padEnd 5 "ATK" ++ JS.padEnd 5 "DEF" ++ JS.padEnd 5 "SPA"
  ++ JS.padEnd 5 "SPD" ++ JS.padEnd 5 "SPE" ++ "Total" ++ newline
  ++ JS.repeat "-" 80 ++ newline.

(** The text appended for one element of [pokemonData]. *)
Definition row (p : Entry) : string :=
  JS.padEnd 15 (name p)
  ++ JS.padEnd 20 (types p)
  ++ JS.padEnd 5 (JS.num_to_string (hp (stats p)))
  ++ JS.padEnd 5 (JS.num_to_string (attack (stats p)))
  ++ JS.padEnd 5 (JS.num_to_string (defense (stats p)))
  ++ JS.padEnd 5 (JS.num_to_string (specialAttack (stats p)))
  ++ JS.padEnd 5 (JS.num_to_string (specialDefense (stats p)))
  ++ JS.padEnd 5 (JS.num_to_string (speed (stats p)))
  ++ JS.num_to_string (total p) ++ newline.

(** [for (const p of pokemonData) { comparison += ... }] *)
Definition table (pokemonData : list Entry) : string :=
  fold_left (fun comparison p => comparison ++ row p) pokemonData header.

Definition compare_pokemon_try (w : World) (pokemon : list string) : M ToolResult :=
  pokemonData <- fetch_all w pokemon [] ;;
  ret (success (table pokemonData)).

Definition compare_pokemon (w : World) (pokemon : list string) : M ToolResult :=
  try_catch
    (compare_pokemon_try w pokemon)
    (fun error =>
       ret (failure ("Error comparing Pokemon: " ++ errorMessage error))).

End Compare.

(** ** Notions used to state the properties *)

Module Spec.

(** [includes needle s]: [needle] occurs in [s]. *)
Fixpoint includes (needle s : string) : bool :=
  if String.prefix needle s then true
  else match s with
       | EmptyString => false
       | String _ s' => includes needle s'
       end.

(** No upper-case letter and no white space. *)
Fixpoint normalized (s : string) : bool :=
  match s with
  | EmptyString => true
  | String c s' => negb (JS.is_upper c) && negb (JS.is_space c) && normalized s'
  end.

(** [sep] does not occur in [s]. *)
Fixpoint free_of (sep : ascii) (s : string) : bool :=
  match s with
  | EmptyString => true
  | String c s' => negb (Ascii.eqb c sep) && free_of sep s'
  end.

Definition is_digit (c : ascii) : bool :=
  let n := nat_of_ascii c in (Nat.leb 48 n && Nat.leb n 57)%bool.

Fixpoint all_digits (s : string) : bool :=
  match s with
  | EmptyString => true
  | String c s' => is_digit c && all_digits s'
  end.

(** The decimal numeral [text] read as a number of tenths: an optional
    sign, an integral part and at most one digit after the point. *)
Definition read_nat (s : string) : option Z :=
  option_map Z.of_uint (NilZero.uint_of_string s).

Definition read_digit (s : string) : option Z :=
  match s with
  | String c EmptyString => if is_digit c then read_nat s else None
  | _ => None
  end.

Definition read_unsigned_tenths (s : string) : option Z :=
  match JS.split "." s with
  | [i] => option_map (fun q => 10 * q) (read_nat i)
  | [i; f] =>
      match read_nat i, read_digit f with
      | Some q, Some r => Some (10 * q + r)
      | _, _ => None
      end
  | _ => None
  end.

Definition read_tenths (s : string) : option Z :=
  match s with
  | String "-" s' => option_map Z.opp (read_unsigned_tenths s')
  | _ => read_unsigned_tenths s
  end.

(** The identifier of a member after the words of the description: split
    on the slash, drop the trailing empty segment, take the last segment
    that is not empty. *)
Definition drop_trailing_empty (segments : list string) : list string :=
  match rev segments with
  | EmptyString :: before => rev before
  | _ => segments
  end.

Definition last_nonempty (segments : list string) : option string :=
  find (fun s => negb (String.eqb s EmptyString)) (rev segments).

Definition id_of_url (url : string) : option string :=
  last_nonempty (drop_trailing_empty (JS.split "/" url)).

(** The depth-first pre-order listing of a chain: each species with its
    depth, the children of a node before its next sibling. *)
Fixpoint preorder (chain : Upstream.EvolutionNode) (depth : nat) : list (nat * string) :=
  match chain with
  | Upstream.Link species_name evolves_to =>
      (depth, species_name)
      :: flat_map (fun child => preorder child (S depth)) evolves_to
  end.

(** One rendered line: two spaces per level, the bullet, the name. *)
Definition line (entry : nat * string) : string :=
  JS.repeat "  " (fst entry) ++ bullet ++ " " ++ capitalize (snd entry).

(** The entries kept for a limit: the first [limit] ones, or all but the
    last [-limit] ones when the limit is negative. *)
Definition kept {A : Type} (listing : list A) (limit : Z) : list A :=
  if limit <? 0
  then firstn (List.length listing - Z.to_nat (- limit)) listing
  else firstn (Z.to_nat limit) listing.


(** The result without the error flag and with the one text [t]. *)
Definition plain_result (t : string) : ToolResult :=
  {| content := [ {| type := "text"; text := t |} ]; isError := false |}.

(** The result with the error flag set and the one text [t]. *)
Definition error_result (t : string) : ToolResult :=
  {| content := [ {| type := "text"; text := t |} ]; isError := true |}.


(** The outcome [o] of a computation accounts for the answer [f] to one of
    its requests: a rejection is thrown on as it is, a status outside
    200-299 ends in a thrown [Error]. *)
Definition answers {A : Type} (o : Outcome A) (f : Upstream.FetchResult) : Prop :=
  match f with
  | Upstream.Rejected (ErrorObject m) => o = Thrown (ErrorObject m)
  | Upstream.Rejected NonError => exists e, o = Thrown e
  | Upstream.Resolved r => Upstream.ok r = false -> exists m, o = Thrown (ErrorObject m)
  end.

(** A computation only appends to the log, and its outcome accounts for
    every request it appends. *)
Definition tracked (w : World) {A : Type} (m : M A) : Prop :=
  forall log, exists added,
    snd (m log) = (log ++ added)%list
    /\ forall url, In url added -> answers (fst (m log)) (fetch w url).



(** The fields of [p] that the description prints are in the domain: the
    name and the type names are ASCII, the id is an exact integer, and the
    height and the weight have exact tenths. *)
Definition described (p : Upstream.PokemonDoc) : bool :=
  Domain.ascii (Upstream.name p)
  && forallb Domain.ascii (Upstream.types p)
  && Domain.integer (Upstream.id p)
  && Domain.small (Upstream.height p)
  && Domain.small (Upstream.weight p).

(** The fields of [p] that a row of the comparison prints are in the
    domain: the name and the type names are ASCII, and every stat is small,
    so that six of them add up exactly. *)
Definition comparable (p : Upstream.PokemonDoc) : bool :=
  Domain.ascii (Upstream.name p)
  && forallb Domain.ascii (Upstream.types p)
  && forallb Domain.small (Upstream.stats p).

(** The lookup of [name] by the comparison succeeds with the document [p],
    which has six stats. *)
Definition fetched_six (w : World) (name : string) (p : Upstream.PokemonDoc) : Prop :=
  exists r,
    fetch w (api ++ "/pokemon/" ++ JS.toLowerCase name) = Upstream.Resolved r
    /\ Upstream.ok r = true
    /\ Upstream.body r = Upstream.Json (Upstream.DPokemon p)
    /\ List.length (Upstream.stats p) = 6%nat.

(** The element of [pokemonData] [e] is made from the document [p]: the
    six columns are the six stats in upstream order, and the total is
    their sum. *)
Definition row_of (p : Upstream.PokemonDoc) (e : Compare.Entry) : Prop :=
  Compare.name e = capitalize (Upstream.name p)
  /\ Compare.id e = Upstream.id p
  /\ Compare.types e = JS.join ", " (map capitalize (Upstream.types p))
  /\ Upstream.stats p
     = [ Compare.hp (Compare.stats e); Compare.attack (Compare.stats e);
         Compare.defense (Compare.stats e); Compare.specialAttack (Compare.stats e);
         Compare.specialDefense (Compare.stats e); Compare.speed (Compare.stats e) ]
  /\ Compare.total e
     = Compare.hp (Compare.stats e) + Compare.attack (Compare.stats e)
       + Compare.defense (Compare.stats e) + Compare.specialAttack (Compare.stats e)
       + Compare.specialDefense (Compare.stats e) + Compare.speed (Compare.stats e).

End Spec.

(** ** Sample data *)

Module Sample.

Definition respond (status : Z) (body : Upstream.Body) : Upstream.FetchResult :=
  Upstream.Resolved {| Upstream.status := status; Upstream.body := body |}.

Definition not_found : Upstream.FetchResult :=
  respond 404 (Upstream.NotJson "Unexpected token 'N'").

Definition pikachu : Upstream.PokemonDoc :=
  {| Upstream.id := 25; Upstream.name := "pikachu"; Upstream.height := 4;
     Upstream.weight := 60; Upstream.types := ["electric"];
     Upstream.stats := [35; 55; 40; 50; 50; 90];
     Upstream.species_url := "https://pokeapi.co/api/v2/pokemon-species/25/" |}.

Definition bulbasaur : Upstream.PokemonDoc :=
  {| Upstream.id := 1; Upstream.name := "bulbasaur"; Upstream.height := 7;
     Upstream.weight := 69; Upstream.types := ["grass"; "poison"];
     Upstream.stats := [45; 49; 49; 65; 65; 45];
     Upstream.species_url := "https://pokeapi.co/api/v2/pokemon-species/1/" |}.

Definition member (name url : string) : Upstream.Member :=
  {| Upstream.member_name := name; Upstream.member_url := url |}.

Definition fire : list Upstream.Member :=
  [ member "charmander" "https://pokeapi.co/api/v2/pokemon/4/";
    member "charmeleon" "https://pokeapi.co/api/v2/pokemon/5/";
    member "charizard" "https://pokeapi.co/api/v2/pokemon/6/" ].

Definition generation_1 : list Upstream.Member :=
  [ member "bulbasaur" "https://pokeapi.co/api/v2/pokemon-species/1/";
    member "ivysaur" "https://pokeapi.co/api/v2/pokemon-species/2/" ].

Definition bulbasaur_chain : Upstream.EvolutionNode :=
  Upstream.Link "bulbasaur" [Upstream.Link "ivysaur" [Upstream.Link "venusaur" []]].

(** An upstream that knows a few URLs and answers 404 to the others. *)
Definition table : list (string * Upstream.FetchResult) :=
  [ ("https://pokeapi.co/api/v2/pokemon/pikachu",
     respond 200 (Upstream.Json (Upstream.DPokemon pikachu)));
    ("https://pokeapi.co/api/v2/pokemon/bulbasaur",
     respond 200 (Upstream.Json (Upstream.DPokemon bulbasaur)));
    ("https://pokeapi.co/api/v2/pokemon-species/1/",
     respond 200 (Upstream.Json (Upstream.DSpecies "https://pokeapi.co/api/v2/evolution-chain/1/")));
    ("https://pokeapi.co/api/v2/evolution-chain/1/",
     respond 200 (Upstream.Json (Upstream.DEvolutionChain bulbasaur_chain)));
    ("https://pokeapi.co/api/v2/type/fire",
     respond 200 (Upstream.Json (Upstream.DType fire)));
    ("https://pokeapi.co/api/v2/generation/1",
     respond 200 (Upstream.Json (Upstream.DGeneration generation_1))) ].

Fixpoint lookup (url : string) (t : list (string * Upstream.FetchResult))
  : Upstream.FetchResult :=
  match t with
  | [] => not_found
  | (u, r) :: t' => if String.eqb url u then r else lookup url t'
  end.

Definition engine_type_error (property : string) : string :=
  "Cannot read properties of undefined (reading '" ++ property ++ "')".

Definition online : World :=
  {| fetch := fun url => lookup url table;
     type_error_message := engine_type_error;
     zod_error_message := fun _ => "Invalid input" |}.

(** An upstream that cannot be reached: every request is rejected. *)
Definition offline : World :=
  {| fetch := fun _ => Upstream.Rejected (ErrorObject "fetch failed");
     type_error_message := engine_type_error;
     zod_error_message := fun _ => "Invalid input" |}.

End Sample.

(** ** Further notions: answers of the upstream, sizes *)

Module Shape.

(** The URL that the multi-tool server requests for a Pokemon name. *)
Definition pokemon_url (name : string) : string :=
  api ++ "/pokemon/" ++ JS.toLowerCase name.

(** The upstream answers [url] with the status [s]. *)
Definition answered (w : World) (url : string) (s : Z) : Prop :=
  exists r, fetch w url = Upstream.Resolved r /\ Upstream.status r = s.

(** The upstream answers [url] with a status in 200-299 and the document [d]. *)
Definition fetched (w : World) (url : string) (d : Upstream.Document) : Prop :=
  exists r,
    fetch w url = Upstream.Resolved r
    /\ Upstream.ok r = true
    /\ Upstream.body r = Upstream.Json d.

(** The upstream answers [url] with a status in 200-299 and a body that is
    not JSON, on which [response.json()] rejects with the message [m]. *)
Definition garbled (w : World) (url : string) (m : string) : Prop :=
  exists r,
    fetch w url = Upstream.Resolved r
    /\ Upstream.ok r = true
    /\ Upstream.body r = Upstream.NotJson m.

(** The number of species of a chain. *)
Fixpoint size (chain : Upstream.EvolutionNode) : nat :=
  match chain with
  | Upstream.Link _ evolves_to =>
      S ((fix sum (l : list Upstream.EvolutionNode) : nat :=
            match l with
            | [] => O
            | c :: l' => (size c + sum l')%nat
            end) evolves_to)
  end.

(** A computation appends at most [n] requests to the log. *)
Definition bounded (n : nat) {A : Type} (m : M A) : Prop :=
  forall log, exists added,
    snd (m log) = (log ++ added)%list /\ (List.length added <= n)%nat.

(** Every cell of the row of [p] fits its column. *)
Definition fits (p : Compare.Entry) : bool :=
  (String.length (Compare.name p) <=? 15)%nat
  && (String.length (Compare.types p) <=? 20)%nat
  && forallb (fun stat => (String.length (JS.num_to_string stat) <=? 5)%nat)
       [ Compare.hp (Compare.stats p); Compare.attack (Compare.stats p);
         Compare.defense (Compare.stats p); Compare.specialAttack (Compare.stats p);
         Compare.specialDefense (Compare.stats p); Compare.speed (Compare.stats p) ].

(** A document with three stats, and one with eight. *)
Definition short_doc : Upstream.PokemonDoc :=
  {| Upstream.id := 132; Upstream.name := "ditto"; Upstream.height := 3;
     Upstream.weight := 40; Upstream.types := ["normal"];
     Upstream.stats := [48; 48; 48];
     Upstream.species_url := "https://pokeapi.co/api/v2/pokemon-species/132/" |}.

Definition wide_doc : Upstream.PokemonDoc :=
  {| Upstream.id := 151; Upstream.name := "mew"; Upstream.height := 4;
     Upstream.weight := 40; Upstream.types := ["psychic"];
     Upstream.stats := [100; 100; 100; 100; 100; 100; 7; 8];
     Upstream.species_url := "https://pokeapi.co/api/v2/pokemon-species/151/" |}.

(** An upstream like [Sample.online] that also knows these two, a species
    without a reachable chain, and a body that is not JSON. *)
Definition table : list (string * Upstream.FetchResult) :=
  [ ("https://pokeapi.co/api/v2/pokemon/ditto",
     Sample.respond 200 (Upstream.Json (Upstream.DPokemon short_doc)));
    ("https://pokeapi.co/api/v2/pokemon/mew",
     Sample.respond 200 (Upstream.Json (Upstream.DPokemon wide_doc)));
    ("https://pokeapi.co/api/v2/pokemon-species/151/",
     Sample.respond 200
       (Upstream.Json (Upstream.DSpecies "https://pokeapi.co/api/v2/evolution-chain/78/")));
    ("https://pokeapi.co/api/v2/pokemon/garbled",
     Sample.respond 200 (Upstream.NotJson "Unexpected token '<'"));
    ("https://pokeapi.co/api/v2/type/garbled",
     Sample.respond 200 (Upstream.NotJson "Unexpected token '<'"));
    ("https://pokeapi.co/api/v2/generation/7",
     Sample.respond 200 (Upstream.NotJson "Unexpected token '<'"));
    ("https://pokeapi.co/api/v2/generation/8",
     Sample.respond 503 (Upstream.NotJson "Service Unavailable"));
    ("https://pokeapi.co/api/v2/type/busy",
     Sample.respond 503 (Upstream.NotJson "Service Unavailable"));
    ("https://pokeapi.co/api/v2/pokemon/busy",
     Sample.respond 503 (Upstream.NotJson "Service Unavailable")) ].

Definition online : World :=
  {| fetch := fun url => Sample.lookup url (table ++ Sample.table)%list;
     type_error_message := Sample.engine_type_error;
     zod_error_message := fun _ => "Invalid input" |}.

(** An upstream whose requests are rejected with a value that is no [Error]. *)
Definition strange : World :=
  {| fetch := fun _ => Upstream.Rejected NonError;
     type_error_message := Sample.engine_type_error;
     zod_error_message := fun _ => "Invalid input" |}.

End Shape.

(** * Properties *)

(** ** Strings and arrays *)

Section StringFacts.

Lemma append_empty_r (s : string) : s ++ "" = s.
Proof. induction s as [|c s IH]; simpl; [reflexivity | now rewrite IH]. Qed.

Lemma append_assoc (a b c : string) : (a ++ b) ++ c = a ++ (b ++ c).
Proof. induction a as [|x a IH]; simpl; [reflexivity | now rewrite IH]. Qed.

Lemma split_nonempty (sep : ascii) (s : string) : JS.split sep s <> [].
Proof.
  induction s as [|c s IH]; simpl; [discriminate|].
  destruct (Ascii.eqb c sep); [discriminate|].
  destruct (JS.split sep s); discriminate.
Qed.

(** Splitting distributes over a separator in the middle. *)
Lemma split_app (sep : ascii) (a b : string) :
  JS.split sep (a ++ String sep b) = (JS.split sep a ++ JS.split sep b)%list.
Proof.
  induction a as [|c a IH]; simpl.
  - now rewrite Ascii.eqb_refl.
  - destruct (Ascii.eqb c sep); [now rewrite IH|].
    rewrite IH. destruct (JS.split sep a) eqn:E; [|reflexivity].
    now apply split_nonempty in E.
Qed.

Lemma split_free (sep : ascii) (s : string) :
  Spec.free_of sep s = true -> JS.split sep s = [s].
Proof.
  induction s as [|c s IH]; simpl; [reflexivity|].
  intros H. apply andb_prop in H as [Hc Hs].
  apply negb_true_iff in Hc. rewrite Hc, (IH Hs). reflexivity.
Qed.

Lemma digits_of_uint (d : Decimal.uint) :
  Spec.all_digits (NilEmpty.string_of_uint d) = true.
Proof. induction d; simpl; auto. Qed.

Lemma digits_of_nat_string (d : Decimal.uint) :
  Spec.all_digits (NilZero.string_of_uint d) = true.
Proof. destruct d; try apply (digits_of_uint (_ _)); reflexivity. Qed.

Lemma digits_free_of_point (s : string) :
  Spec.all_digits s = true -> Spec.free_of "." s = true.
Proof.
  induction s as [|c s IH]; simpl; [reflexivity|].
  intros H. apply andb_prop in H as [Hc Hs]. rewrite (IH Hs), andb_true_r.
  destruct (Ascii.eqb_spec c ".") as [->|]; [discriminate Hc | reflexivity].
Qed.

End StringFacts.

(** ** Numerals *)

Section Numerals.

Lemma num_to_string_nonneg (q : Z) :
  0 <= q -> exists d, d <> Decimal.Nil /\ Z.of_uint d = q
                      /\ JS.num_to_string q = NilZero.string_of_uint d.
Proof.
  intros Hq. destruct q as [|p|p]; [| |lia].
  - exists (Decimal.D0 Decimal.Nil). repeat split. discriminate.
  - exists (Pos.to_uint p). split; [apply DecimalPos.Unsigned.to_uint_nonnil|].
    split; [|reflexivity].
    unfold Z.of_uint. now rewrite DecimalPos.Unsigned.of_to.
Qed.

Lemma num_to_string_digits (q : Z) :
  0 <= q -> Spec.all_digits (JS.num_to_string q) = true.
Proof.
  intros Hq. destruct (num_to_string_nonneg q Hq) as (d & _ & _ & ->).
  apply digits_of_nat_string.
Qed.

Lemma num_to_string_nonempty (n : Z) : JS.num_to_string n <> "".
Proof.
  unfold JS.num_to_string. destruct (Z.to_int n) as [d|d]; simpl; [|discriminate].
  destruct d; discriminate.
Qed.

Lemma read_nat_num_to_string (q : Z) :
  0 <= q -> Spec.read_nat (JS.num_to_string q) = Some q.
Proof.
  intros Hq. destruct (num_to_string_nonneg q Hq) as (d & Hd & Hv & ->).
  unfold Spec.read_nat. rewrite (NilZero.usu d Hd). simpl. now rewrite Hv.
Qed.

Lemma read_tenths_unsigned (s t : string) :
  Spec.all_digits s = true -> s <> "" ->
  Spec.read_tenths (s ++ t) = Spec.read_unsigned_tenths (s ++ t).
Proof.
  intros Hs Hne. destruct s as [|c s]; [congruence|].
  simpl in Hs. apply andb_prop in Hs as [Hc _].
  destruct c as [[] [] [] [] [] [] [] []]; try discriminate Hc; reflexivity.
Qed.

Lemma read_digit_num_to_string (r : Z) :
  0 < r < 10 -> Spec.read_digit (JS.num_to_string r) = Some r.
Proof.
  intros H.
  assert (E : r = 1 \/ r = 2 \/ r = 3 \/ r = 4 \/ r = 5 \/ r = 6 \/ r = 7 \/ r = 8
              \/ r = 9) by lia.
  repeat (destruct E as [->|E]; [reflexivity|]). now subst r.
Qed.

Lemma read_unsigned_tenths_render (a : Z) :
  0 <= a ->
  Spec.read_unsigned_tenths
    (JS.num_to_string (a / 10)
     ++ (if a mod 10 =? 0 then "" else "." ++ JS.num_to_string (a mod 10)))
  = Some a.
Proof.
  intros Ha.
  assert (Hq : 0 <= a / 10) by (apply Z.div_pos; lia).
  assert (Hr : 0 <= a mod 10 < 10) by (apply Z.mod_pos_bound; lia).
  pose proof (Z.div_mod a 10 ltac:(lia)) as Hdm.
  unfold Spec.read_unsigned_tenths.
  destruct (Z.eqb_spec (a mod 10) 0) as [E|E].
  - rewrite append_empty_r, split_free
      by (apply digits_free_of_point, num_to_string_digits; lia).
    rewrite read_nat_num_to_string by lia. cbn [option_map]. f_equal. lia.
  - change ("." ++ JS.num_to_string (a mod 10))
      with (String "." (JS.num_to_string (a mod 10))).
    rewrite split_app.
    rewrite !split_free
      by (apply digits_free_of_point, num_to_string_digits; lia).
    cbn [app]. rewrite read_nat_num_to_string by lia.
    rewrite read_digit_num_to_string by lia. f_equal. lia.
Qed.

(** The rendered quotient reads back as the number of tenths it was made
    from: the text denotes [n / 10] exactly. *)
Lemma read_tenths_to_string (n : Z) :
  Spec.read_tenths (JS.tenths_to_string n) = Some n.
Proof.
  unfold JS.tenths_to_string.
  destruct (Z.ltb_spec n 0) as [Hn|Hn].
  - unfold Spec.read_tenths. cbn [append].
    rewrite read_unsigned_tenths_render by lia. cbn [option_map]. f_equal. lia.
  - cbn [append].
    rewrite read_tenths_unsigned.
    + rewrite read_unsigned_tenths_render by lia. f_equal. lia.
    + apply num_to_string_digits, Z.div_pos; lia.
    + apply num_to_string_nonempty.
Qed.

End Numerals.

(** ** The single-lookup handler *)

Section ServerFacts.

Variable w : World.

(** White space is the only thing that normalization can turn into the
    empty string, and it turns it into a hyphen. *)
Lemma replace_ws_from_empty (in_run : bool) (s : string) :
  JS.replace_ws_from in_run s = "" ->
  s = "" \/ in_run = true.
Proof.
  destruct s as [|c s]; [now left|]. simpl.
  destruct (JS.is_space c); destruct in_run; try discriminate; now right.
Qed.

Lemma normalize_empty (name : string) :
  Server.normalize name = "" -> name = "".
Proof.
  unfold Server.normalize, JS.replace_ws. intros H.
  apply replace_ws_from_empty in H as [H|H]; [|discriminate].
  destruct name; [reflexivity | discriminate H].
Qed.

Lemma lower_char_fixed (c : ascii) : JS.is_upper c = false -> JS.lower_char c = c.
Proof. unfold JS.lower_char. now intros ->. Qed.

Lemma lower_char_space (c : ascii) : JS.is_space (JS.lower_char c) = JS.is_space c.
Proof. destruct c as [[] [] [] [] [] [] [] []]; reflexivity. Qed.






Lemma normalize_fixed (s : string) :
  Spec.normalized s = true -> Server.normalize s = s.
Proof.
  unfold Server.normalize, JS.replace_ws, JS.toLowerCase.
  induction s as [|c s IH]; simpl; [reflexivity|].
  intros H. apply andb_prop in H as [H Hs]. apply andb_prop in H as [Hu Hw].
  apply negb_true_iff in Hu, Hw.
  rewrite (lower_char_fixed c Hu), Hw, (IH Hs). reflexivity.
Qed.

(** The first and only request of [getPokemonInfo]. *)
Lemma getPokemonInfo_requests (name : string) :
  requests_of (Server.getPokemonInfo w name)
  = [api ++ "/pokemon/" ++ Server.normalize name].
Proof.
  unfold requests_of, run, Server.getPokemonInfo, try_catch, bind, do_fetch.
  destruct (fetch w _) as [r|e]; cbn [app].
  - destruct (negb (Upstream.ok r)).
    + destruct (Upstream.status r =? 404); reflexivity.
    + unfold ret, response_json.
      destruct (Upstream.body r) as [m|d]; [reflexivity|].
      destruct d; reflexivity.
  - destruct e; reflexivity.
Qed.

Lemma get_pokemon_pokedex_info_requests (name : string) :
  requests_of (Server.get_pokemon_pokedex_info w name)
  = requests_of (Server.getPokemonInfo w name).
Proof.
  unfold requests_of, run, Server.get_pokemon_pokedex_info,
    Server.get_pokemon_pokedex_info_try, try_catch, bind.
  destruct (Server.getPokemonInfo w name []) as [[t|e] log]; reflexivity.
Qed.

(** A successful lookup, step by step: one request, the status check, the
    body, the schema, the template. *)
Lemma getPokemonInfo_success
  (name : string) (r : Upstream.Response) (p : Upstream.PokemonDoc) :
  fetch w (api ++ "/pokemon/" ++ Server.normalize name) = Upstream.Resolved r ->
  Upstream.ok r = true ->
  Upstream.body r = Upstream.Json (Upstream.DPokemon p) ->
  let pokemon := {| Server.id := Upstream.id p;
                    Server.name := Upstream.name p;
                    Server.height := Upstream.height p;
                    Server.weight := Upstream.weight p;
                    Server.types := Upstream.types p |} in
  run (Server.getPokemonInfo w name)
  = (Returned (Server.render pokemon), [api ++ "/pokemon/" ++ Server.normalize name])
  /\ run (Server.get_pokemon_pokedex_info w name)
     = (Returned (success (Server.render pokemon)),
        [api ++ "/pokemon/" ++ Server.normalize name]).
Proof.
  intros Hfetch Hok Hbody pokemon.
  assert (H : forall log, Server.getPokemonInfo w name log =
              (Returned (Server.render pokemon),
               (log ++ [(api ++ "/pokemon/" ++ Server.normalize name)%string])%list)).
  { intros log. unfold Server.getPokemonInfo, try_catch, bind, do_fetch.
    rewrite Hfetch, Hok. cbn [negb ret]. unfold response_json.
    rewrite Hbody. reflexivity. }
  split.
  - unfold run. now rewrite H.
  - unfold run, Server.get_pokemon_pokedex_info,
      Server.get_pokemon_pokedex_info_try, try_catch, bind.
    now rewrite H.
Qed.

End ServerFacts.

(** C1: when the lookup of the normalized name succeeds with a document of
    the Pokemon shape, whose texts are ASCII and whose numbers are integers
    in the range where the language prints them exactly, [getPokemonInfo]
    returns, and the tool hands back unflagged, exactly the capitalized
    name, the id, the capitalized type names in upstream order joined by a
    comma and a space, and the height and the weight as numerals that
    denote a tenth of the upstream integers. *)
Theorem C1_get_pokemon_info_template
  (w : World) (name : string) (r : Upstream.Response) (p : Upstream.PokemonDoc) :
  fetch w (api ++ "/pokemon/" ++ Server.normalize name) = Upstream.Resolved r ->
  Upstream.ok r = true ->
  Upstream.body r = Upstream.Json (Upstream.DPokemon p) ->
  Spec.described p = true ->
  let h := JS.tenths_to_string (Upstream.height p) in
  let k := JS.tenths_to_string (Upstream.weight p) in
  let text :=
    capitalize (Upstream.name p) ++ " (#" ++ JS.num_to_string (Upstream.id p)
    ++ ") - " ++ JS.join ", " (map capitalize (Upstream.types p))
    ++ " type, " ++ h ++ "m tall, " ++ k ++ "kg" in
  result_of (Server.getPokemonInfo w name) = Returned text
  /\ result_of (Server.get_pokemon_pokedex_info w name) = Returned (Spec.plain_result text)
  /\ Spec.read_tenths h = Some (Upstream.height p)
  /\ Spec.read_tenths k = Some (Upstream.weight p).
Proof.
  intros Hfetch Hok Hbody _ h k text.
  destruct (getPokemonInfo_success w name r p Hfetch Hok Hbody) as (Hinfo & Htool).
  repeat split.
  - unfold result_of. now rewrite Hinfo.
  - unfold result_of. now rewrite Htool.
  - apply read_tenths_to_string.
  - apply read_tenths_to_string.
Qed.

Lemma C1_witness :
  result_of (Server.getPokemonInfo Sample.online "Pikachu")
    = Returned "Pikachu (#25) - Electric type, 0.4m tall, 6kg"
  /\ result_of (Server.get_pokemon_pokedex_info Sample.online "Pikachu")
    = Returned (Spec.plain_result "Pikachu (#25) - Electric type, 0.4m tall, 6kg")
  /\ Spec.read_tenths "0.4" = Some 4
  /\ Spec.read_tenths "6" = Some 60.
Proof.
  exact (C1_get_pokemon_info_template Sample.online "Pikachu"
           {| Upstream.status := 200;
              Upstream.body := Upstream.Json (Upstream.DPokemon Sample.pikachu) |}
           Sample.pikachu eq_refl eq_refl eq_refl eq_refl).
Defined.

(** C6 (as stated, refuted): the empty name is empty after normalization,
    and the lookup is sent upstream all the same, with an empty slug; the
    error of the result is the upstream's 404, not a refusal of the input. *)
Lemma C6_counterexample :
  Server.normalize "" = ""
  /\ run (Server.get_pokemon_pokedex_info Sample.online "")
     = (Returned (failure ("Error getting pokemon info: Pokémon " ++ dquote ++ dquote
                           ++ " not found.")),
        ["https://pokeapi.co/api/v2/pokemon/"]).
Proof. split; reflexivity. Qed.

(** C6 (amended): the only name that is empty after normalization is the
    empty string; for it [get_pokemon_info] makes no check of its own: it
    requests [/pokemon/] with an empty slug, exactly once, and a document of
    the Pokemon shape in the answer is rendered as for any other name. *)
Theorem C6_empty_name_is_looked_up (w : World) (name : string) :
  Server.normalize name = "" ->
  name = ""
  /\ requests_of (Server.get_pokemon_pokedex_info w name) = [api ++ "/pokemon/"]
  /\ forall r p,
       fetch w (api ++ "/pokemon/") = Upstream.Resolved r ->
       Upstream.ok r = true ->
       Upstream.body r = Upstream.Json (Upstream.DPokemon p) ->
       exists text,
         result_of (Server.get_pokemon_pokedex_info w name) = Returned (success text).
Proof.
  intros H. pose proof (normalize_empty name H) as ->.
  split; [reflexivity|]. split.
  - rewrite get_pokemon_pokedex_info_requests, getPokemonInfo_requests.
    reflexivity.
  - intros r p Hf Hok Hb.
    destruct (getPokemonInfo_success w "" r p Hf Hok Hb) as (_ & Ht).
    eexists. unfold result_of. now rewrite Ht.
Qed.

Lemma C6_witness :
  "" = ""
  /\ requests_of (Server.get_pokemon_pokedex_info Sample.online "")
     = [api ++ "/pokemon/"]
  /\ forall r p,
       fetch Sample.online (api ++ "/pokemon/") = Upstream.Resolved r ->
       Upstream.ok r = true ->
       Upstream.body r = Upstream.Json (Upstream.DPokemon p) ->
       exists text,
         result_of (Server.get_pokemon_pokedex_info Sample.online "")
         = Returned (success text).
Proof. exact (C6_empty_name_is_looked_up Sample.online "" eq_refl). Defined.




(** ** Requests and exceptions of the handlers *)

Section Tracking.

Variable w : World.

Lemma answers_returned {A B} (a : A) (o : Outcome B) (f : Upstream.FetchResult) :
  Spec.answers (Returned a) f -> Spec.answers o f.
Proof.
  destruct f as [r|[m|]]; simpl.
  - intros H Hok. destruct (H Hok) as (m & Hm). discriminate Hm.
  - discriminate.
  - intros (e & He). discriminate He.
Qed.

Lemma answers_thrown {A B} (e : Exn) (f : Upstream.FetchResult) :
  Spec.answers (@Thrown A e) f -> Spec.answers (@Thrown B e) f.
Proof.
  destruct f as [r|[m|]]; simpl.
  - intros H Hok. destruct (H Hok) as (m & Hm). exists m. congruence.
  - congruence.
  - intros _. now exists e.
Qed.

Lemma tracked_ret {A} (a : A) : Spec.tracked w (ret a).
Proof. intros log. exists []. split; [simpl; now rewrite app_nil_r | intros ? []]. Qed.

Lemma tracked_throw {A} (e : Exn) : Spec.tracked w (@throw A e).
Proof. intros log. exists []. split; [simpl; now rewrite app_nil_r | intros ? []]. Qed.

Lemma tracked_bind {A B} (m : M A) (k : A -> M B) :
  Spec.tracked w m -> (forall a, Spec.tracked w (k a)) -> Spec.tracked w (bind m k).
Proof.
  intros Hm Hk log. unfold bind.
  destruct (Hm log) as (added1 & Hs1 & Ha1).
  destruct (m log) as [[a|e] log1]; simpl in Hs1, Ha1; subst log1.
  - destruct (Hk a (log ++ added1)%list) as (added2 & Hs2 & Ha2).
    exists (added1 ++ added2)%list. split; [now rewrite Hs2, app_assoc|].
    intros url Hin. apply in_app_or in Hin as [Hin|Hin].
    + eapply answers_returned. apply (Ha1 url Hin).
    + apply (Ha2 url Hin).
  - exists added1. split; [reflexivity|].
    intros url Hin. simpl. apply (@answers_thrown A B). apply (Ha1 url Hin).
Qed.

(** A request whose continuation throws an [Error] on every status outside
    200-299. *)
Lemma tracked_fetch {B} (url : string) (k : Upstream.Response -> M B) :
  (forall r log, Upstream.ok r = false -> exists m, fst (k r log) = Thrown (ErrorObject m)) ->
  (forall r, Spec.tracked w (k r)) ->
  Spec.tracked w (bind (do_fetch w url) k).
Proof.
  intros Hbad Hk log. unfold bind, do_fetch.
  destruct (fetch w url) as [r|e] eqn:E.
  - destruct (Hk r (log ++ [url])%list) as (added & Hs & Ha).
    exists (url :: added). split.
    + rewrite Hs, <- app_assoc. reflexivity.
    + intros u [<-|Hin]; [|now apply Ha].
      rewrite E. simpl. intros Hok. apply Hbad, Hok.
  - exists [url]. split; [reflexivity|].
    intros u [<-|[]]. rewrite E. destruct e; simpl; eauto.
Qed.

Lemma check_ok_bad (r : Upstream.Response) (context : string) (log : list string) :
  Upstream.ok r = false ->
  exists m, check_ok r context log = (Thrown (ErrorObject m), log).
Proof.
  intros Hok. unfold check_ok, handleApiError. rewrite Hok. cbn [negb].
  destruct (Upstream.status r =? 404); eexists; reflexivity.
Qed.

Lemma tracked_check_ok (r : Upstream.Response) (context : string) :
  Spec.tracked w (check_ok r context).
Proof.
  unfold check_ok, handleApiError.
  destruct (negb (Upstream.ok r)); [|apply tracked_ret].
  destruct (Upstream.status r =? 404); apply tracked_throw.
Qed.

(** The idiom of the multi-tool server: request, status check, the rest. *)
Lemma tracked_checked_fetch {B} (url context : string) (k : Upstream.Response -> M B) :
  (forall r, Spec.tracked w (k r)) ->
  Spec.tracked w (bind (do_fetch w url)
                       (fun r => bind (check_ok r context) (fun _ => k r))).
Proof.
  intros Hk. apply tracked_fetch.
  - intros r log Hok. unfold bind.
    destruct (check_ok_bad r context log Hok) as (m & ->). now exists m.
  - intros r. apply tracked_bind; [apply tracked_check_ok | intros _; apply Hk].
Qed.

Lemma tracked_response_json (r : Upstream.Response) :
  Spec.tracked w (response_json r).
Proof.
  unfold response_json.
  destruct (Upstream.body r); [apply tracked_throw | apply tracked_ret].
Qed.

End Tracking.

Create HintDb tracked.

#[local] Hint Resolve tracked_ret tracked_throw tracked_check_ok
  tracked_response_json : tracked.

Ltac tracked_step :=
  lazymatch goal with
  | |- Spec.tracked _ (bind (do_fetch _ _) (fun r => bind (check_ok r _) _)) =>
      apply tracked_checked_fetch; intros
  | |- Spec.tracked _ (bind _ _) => apply tracked_bind; [|intros]
  | |- Spec.tracked _ (match ?d with _ => _ end) => destruct d
  | |- Spec.tracked _ _ => auto with tracked
  end.

Section TryBlocks.

Variable w : World.

Lemma PokemonSchema_parse_tracked (json : Upstream.Document) :
  Spec.tracked w (Server.PokemonSchema_parse w json).
Proof. unfold Server.PokemonSchema_parse. destruct json; auto with tracked. Qed.

Lemma getPokemonInfo_tracked (name : string) :
  Spec.tracked w (Server.getPokemonInfo w name).
Proof.
  assert (Hbody : Spec.tracked w
    (response <- do_fetch w (api ++ "/pokemon/" ++ Server.normalize name) ;;
     (if negb (Upstream.ok response)
      then if Upstream.status response =? 404
           then throw (ErrorObject ("Pokémon " ++ dquote ++ name ++ dquote ++ " not found."))
           else throw (ErrorObject ("Failed to fetch Pokémon data: "
                                    ++ JS.num_to_string (Upstream.status response)))
      else ret tt) ;;;
     json <- response_json response ;;
     pokemon <- Server.PokemonSchema_parse w json ;;
     ret (Server.render pokemon))).
  { apply tracked_fetch.
    - intros r log Hok. unfold bind. rewrite Hok. cbn [negb].
      destruct (Upstream.status r =? 404); eexists; reflexivity.
    - intros r. repeat tracked_step. apply PokemonSchema_parse_tracked. }
  intros log. unfold Server.getPokemonInfo, try_catch.
  destruct (Hbody log) as (added & Hs & Ha). exists added.
  match goal with
  | H : snd (?m log) = _ |- _ => destruct (m log) as [[t|e] log1]
  end; simpl in *; [now split|].
  unfold throw. split; [exact Hs|].
  intros url Hin. specialize (Ha url Hin).
  destruct (fetch w url) as [r|[m|]]; simpl in *.
  - intros Hok. destruct (Ha Hok) as (m & [= ->]). now exists m.
  - now injection Ha as ->.
  - eauto.
Qed.

Lemma get_pokemon_pokedex_info_try_tracked (name : string) :
  Spec.tracked w (Server.get_pokemon_pokedex_info_try w name).
Proof.
  unfold Server.get_pokemon_pokedex_info_try.
  apply tracked_bind; [apply getPokemonInfo_tracked | intros; apply tracked_ret].
Qed.

Lemma search_pokemon_by_type_try_tracked (type : string) (limit : Z) :
  Spec.tracked w (Search.search_pokemon_by_type_try w type limit).
Proof. unfold Search.search_pokemon_by_type_try. repeat tracked_step. Qed.

Lemma search_pokemon_by_generation_try_tracked (generation limit : Z) :
  Spec.tracked w (Search.search_pokemon_by_generation_try w generation limit).
Proof. unfold Search.search_pokemon_by_generation_try. repeat tracked_step. Qed.

Lemma get_pokemon_evolution_chain_try_tracked (name : string) :
  Spec.tracked w (Evolution.get_pokemon_evolution_chain_try w name).
Proof. unfold Evolution.get_pokemon_evolution_chain_try. repeat tracked_step. Qed.

Lemma base_stat_tracked (stats : list Z) (k : nat) :
  Spec.tracked w (Compare.base_stat w stats k).
Proof. unfold Compare.base_stat. destruct (nth_error stats k); auto with tracked. Qed.

Lemma fetch_entry_tracked (name : string) :
  Spec.tracked w (Compare.fetch_entry w name).
Proof.
  unfold Compare.fetch_entry. repeat tracked_step.
  unfold Compare.entry_of.
  repeat (apply tracked_bind; [apply base_stat_tracked | intros]).
  apply tracked_ret.
Qed.

Lemma fetch_all_tracked (pokemon : list string) (pokemonData : list Compare.Entry) :
  Spec.tracked w (Compare.fetch_all w pokemon pokemonData).
Proof.
  revert pokemonData. induction pokemon as [|name rest IH]; intros pokemonData; simpl.
  - apply tracked_ret.
  - apply tracked_bind; [apply fetch_entry_tracked | intros; apply IH].
Qed.

Lemma compare_pokemon_try_tracked (pokemon : list string) :
  Spec.tracked w (Compare.compare_pokemon_try w pokemon).
Proof.
  unfold Compare.compare_pokemon_try.
  apply tracked_bind; [apply fetch_all_tracked | intros; apply tracked_ret].
Qed.

End TryBlocks.

(** ** The boundary of a tool handler *)

Section Boundary.

Variable w : World.



(** The [catch] block of the five handlers. *)
Local Abbreviation boundary prefix try_block :=
  (try_catch try_block
     (fun error => ret (failure (prefix ++ errorMessage error)))).


Lemma boundary_rejected (prefix : string) (try_block : M ToolResult) (url m : string) :
  Spec.tracked w try_block ->
  fetch w url = Upstream.Rejected (ErrorObject m) ->
  In url (requests_of (boundary prefix try_block)) ->
  result_of (boundary prefix try_block) = Returned (failure (prefix ++ m)).
Proof.
  intros Ht Hf.
  unfold result_of, requests_of, run, try_catch.
  destruct (Ht []) as (added & Hlog & Ha).
  destruct (try_block []) as [[r|e] log1]; simpl in *; subst log1;
    intros Hin; specialize (Ha url Hin); rewrite Hf in Ha; simpl in Ha.
  - discriminate Ha.
  - now injection Ha as ->.
Qed.

End Boundary.

Section Handlers.

Variable w : World.











End Handlers.



(** C4 (as stated, refuted): a rejected request of the type search yields
    the prefix of the operation and the message of the rejection; the text
    has no label of the looked-up type and no "network" marker. *)
Lemma C4_counterexample :
  run (Search.search_pokemon_by_type Sample.offline "fire" None)
  = (Returned (failure "Error searching Pokemon by type: fetch failed"),
     ["https://pokeapi.co/api/v2/type/fire"])
  /\ Spec.includes "network" "Error searching Pokemon by type: fetch failed" = false
  /\ Spec.includes ("Type " ++ dquote ++ "fire" ++ dquote)
       "Error searching Pokemon by type: fetch failed" = false.
Proof. repeat split. Qed.

(** C4 (amended): in each of the five operations, a request that [fetch]
    rejects with an [Error] ends the operation with the error flag and the
    text made of the prefix of the operation and the message of that
    [Error], unchanged; no label and no marker is added. *)
Theorem C4_rejection_message_is_kept
  (w : World) (name type : string) (generation : Z) (limit : option Z)
  (pokemon : list string) (url m : string) :
  fetch w url = Upstream.Rejected (ErrorObject m) ->
  (In url (requests_of (Server.get_pokemon_pokedex_info w name)) ->
   result_of (Server.get_pokemon_pokedex_info w name)
   = Returned (failure ("Error getting pokemon info: " ++ m)))
  /\ (In url (requests_of (Search.search_pokemon_by_type w type limit)) ->
      result_of (Search.search_pokemon_by_type w type limit)
      = Returned (failure ("Error searching Pokemon by type: " ++ m)))
  /\ (In url (requests_of (Search.search_pokemon_by_generation w generation limit)) ->
      result_of (Search.search_pokemon_by_generation w generation limit)
      = Returned (failure ("Error searching Pokemon by generation: " ++ m)))
  /\ (In url (requests_of (Evolution.get_pokemon_evolution_chain w name)) ->
      result_of (Evolution.get_pokemon_evolution_chain w name)
      = Returned (failure ("Error getting evolution chain: " ++ m)))
  /\ (In url (requests_of (Compare.compare_pokemon w pokemon)) ->
      result_of (Compare.compare_pokemon w pokemon)
      = Returned (failure ("Error comparing Pokemon: " ++ m))).
Proof.
  intros Hf. repeat split; intros Hin.
  - eapply boundary_rejected; eauto using get_pokemon_pokedex_info_try_tracked.
  - eapply boundary_rejected; eauto using search_pokemon_by_type_try_tracked.
  - eapply boundary_rejected; eauto using search_pokemon_by_generation_try_tracked.
  - eapply boundary_rejected; eauto using get_pokemon_evolution_chain_try_tracked.
  - eapply boundary_rejected; eauto using compare_pokemon_try_tracked.
Qed.

Lemma C4_witness :
  (In "https://pokeapi.co/api/v2/type/fire"
      (requests_of (Server.get_pokemon_pokedex_info Sample.offline "fire")) ->
   result_of (Server.get_pokemon_pokedex_info Sample.offline "fire")
   = Returned (failure ("Error getting pokemon info: " ++ "fetch failed")))
  /\ (In "https://pokeapi.co/api/v2/type/fire"
         (requests_of (Search.search_pokemon_by_type Sample.offline "fire" None)) ->
      result_of (Search.search_pokemon_by_type Sample.offline "fire" None)
      = Returned (failure ("Error searching Pokemon by type: " ++ "fetch failed")))
  /\ (In "https://pokeapi.co/api/v2/type/fire"
         (requests_of (Search.search_pokemon_by_generation Sample.offline 1 None)) ->
      result_of (Search.search_pokemon_by_generation Sample.offline 1 None)
      = Returned (failure ("Error searching Pokemon by generation: " ++ "fetch failed")))
  /\ (In "https://pokeapi.co/api/v2/type/fire"
         (requests_of (Evolution.get_pokemon_evolution_chain Sample.offline "fire")) ->
      result_of (Evolution.get_pokemon_evolution_chain Sample.offline "fire")
      = Returned (failure ("Error getting evolution chain: " ++ "fetch failed")))
  /\ (In "https://pokeapi.co/api/v2/type/fire"
         (requests_of (Compare.compare_pokemon Sample.offline ["fire"; "water"])) ->
      result_of (Compare.compare_pokemon Sample.offline ["fire"; "water"])
      = Returned (failure ("Error comparing Pokemon: " ++ "fetch failed"))).
Proof.
  exact (C4_rejection_message_is_kept Sample.offline "fire" "fire" 1 None
           ["fire"; "water"] "https://pokeapi.co/api/v2/type/fire" "fetch failed"
           eq_refl).
Defined.

(** ** The comparison table *)

Section Comparison.

Variable w : World.

Lemma boundary_log (prefix : string) (try_block : M ToolResult) (log : list string) :
  snd (try_catch try_block
         (fun error => ret (failure (prefix ++ errorMessage error))) log)
  = snd (try_block log).
Proof. unfold try_catch. now destruct (try_block log) as [[r|e] log1]. Qed.

Lemma first_request {B} (url : string) (k : Upstream.Response -> M B) :
  (forall r, Spec.tracked w (k r)) ->
  exists rest, snd (bind (do_fetch w url) k []) = url :: rest.
Proof.
  intros Hk. unfold bind, do_fetch.
  destruct (fetch w url) as [r|e]; [|now exists []].
  destruct (Hk r ([] ++ [url])%list) as (added & Hs & _).
  exists added. now rewrite Hs.
Qed.

(** The multi-tool server sends the name in lower case, as it is otherwise. *)
Lemma evolution_first_request (name : string) :
  exists rest,
    requests_of (Evolution.get_pokemon_evolution_chain w name)
    = (api ++ "/pokemon/" ++ JS.toLowerCase name) :: rest.
Proof.
  unfold requests_of, run, Evolution.get_pokemon_evolution_chain.
  rewrite boundary_log. unfold Evolution.get_pokemon_evolution_chain_try.
  apply first_request. intros r. repeat tracked_step.
Qed.

Lemma compare_first_request (name : string) (others : list string) :
  exists rest,
    requests_of (Compare.compare_pokemon w (name :: others))
    = (api ++ "/pokemon/" ++ JS.toLowerCase name) :: rest.
Proof.
  unfold requests_of, run, Compare.compare_pokemon.
  rewrite boundary_log.
  destruct (fetch_entry_tracked w name []) as (added1 & Hs1 & _).
  assert (H1 : exists rest, snd (Compare.fetch_entry w name [])
                            = (api ++ "/pokemon/" ++ JS.toLowerCase name) :: rest).
  { unfold Compare.fetch_entry. apply first_request. intros r. repeat tracked_step.
    unfold Compare.entry_of.
    repeat (apply tracked_bind; [apply base_stat_tracked | intros]).
    apply tracked_ret. }
  destruct H1 as (rest1 & H1).
  unfold Compare.compare_pokemon_try, bind. cbn [Compare.fetch_all]. unfold bind.
  destruct (Compare.fetch_entry w name []) as [[entry|e] log1]; simpl in H1; subst log1.
  - destruct (fetch_all_tracked w others ([] ++ [entry])%list
                ((api ++ "/pokemon/" ++ JS.toLowerCase name)%string :: rest1))
      as (added & Hs & _).
    destruct (Compare.fetch_all w others _ _) as [[rows|e] log2]; simpl in Hs; subst log2;
      eexists; reflexivity.
  - eexists; reflexivity.
Qed.

Lemma table_rows (pokemonData : list Compare.Entry) (comparison : string) :
  fold_left (fun comparison p => comparison ++ Compare.row p) pokemonData comparison
  = comparison ++ fold_right append "" (map Compare.row pokemonData).
Proof.
  revert comparison. induction pokemonData as [|p rest IH]; intros comparison; simpl.
  - now rewrite append_empty_r.
  - now rewrite IH, append_assoc.
Qed.

Lemma entry_of_six (p : Upstream.PokemonDoc) (a b c d e f : Z) (log : list string) :
  Upstream.stats p = [a; b; c; d; e; f] ->
  Compare.entry_of w p log
  = (Returned
       {| Compare.name := capitalize (Upstream.name p);
          Compare.id := Upstream.id p;
          Compare.types := JS.join ", " (map capitalize (Upstream.types p));
          Compare.stats := {| Compare.hp := a; Compare.attack := b;
                              Compare.defense := c; Compare.specialAttack := d;
                              Compare.specialDefense := e; Compare.speed := f |};
          Compare.total := 0 + a + b + c + d + e + f |}, log).
Proof. intros H. unfold Compare.entry_of. rewrite H. reflexivity. Qed.

Lemma six_elements {A} (l : list A) :
  List.length l = 6%nat -> exists a b c d e f, l = [a; b; c; d; e; f].
Proof.
  intros H. do 6 (destruct l as [|? l]; [discriminate H|]).
  destruct l; [|discriminate H]. now repeat eexists.
Qed.

Lemma fetch_entry_six (name : string) (p : Upstream.PokemonDoc) (log : list string) :
  Spec.fetched_six w name p ->
  exists e,
    Compare.fetch_entry w name log
    = (Returned e, (log ++ [(api ++ "/pokemon/" ++ JS.toLowerCase name)%string])%list)
    /\ Spec.row_of p e.
Proof.
  intros (r & Hf & Hok & Hb & Hlen).
  destruct (six_elements _ Hlen) as (a & b & c & d & e & f & Hstats).
  eexists. split.
  - unfold Compare.fetch_entry, bind, do_fetch, check_ok. rewrite Hf, Hok.
    cbn [negb ret]. unfold response_json. rewrite Hb. cbn [ret].
    apply (entry_of_six p a b c d e f _ Hstats).
  - unfold Spec.row_of. cbn. repeat split; first [exact Hstats | lia].
Qed.

Lemma fetch_all_six (pokemon : list string) (docs : list Upstream.PokemonDoc) :
  Forall2 (Spec.fetched_six w) pokemon docs ->
  forall pokemonData log,
  exists rows,
    Compare.fetch_all w pokemon pokemonData log
    = (Returned (pokemonData ++ rows)%list,
       (log ++ map (fun name => (api ++ "/pokemon/" ++ JS.toLowerCase name)%string)
                    pokemon)%list)
    /\ Forall2 Spec.row_of docs rows.
Proof.
  induction 1 as [|name p pokemon docs Hhead _ IH]; intros pokemonData log.
  - exists []. split; [|constructor]. cbn. now rewrite !app_nil_r.
  - destruct (fetch_entry_six name p log Hhead) as (e & He & Hrow).
    destruct (IH (pokemonData ++ [e])%list
                 (log ++ [(api ++ "/pokemon/" ++ JS.toLowerCase name)%string])%list)
      as (rows & Hrows & Hall).
    exists (e :: rows). split; [|now constructor].
    cbn [Compare.fetch_all map]. unfold bind. rewrite He, Hrows.
    now rewrite <- !app_assoc.
Qed.

End Comparison.

(** C5 (the code departs from it): for every name, the evolution-chain
    lookup and the comparison send the name in lower case with its white
    space, where the single-lookup server sends the hyphenated slug; so
    for "Tapu Koko" the first two request [/pokemon/tapu koko] and the
    last [/pokemon/tapu-koko]. *)
Theorem C5_spaces_are_sent_upstream (w : World) (name : string) (others : list string) :
  (exists rest,
      requests_of (Evolution.get_pokemon_evolution_chain w name)
      = (api ++ "/pokemon/" ++ JS.toLowerCase name) :: rest)
  /\ (exists rest,
        requests_of (Compare.compare_pokemon w (name :: others))
        = (api ++ "/pokemon/" ++ JS.toLowerCase name) :: rest)
  /\ requests_of (Server.get_pokemon_pokedex_info w name)
     = [api ++ "/pokemon/" ++ JS.replace_ws (JS.toLowerCase name)]
  /\ requests_of (Evolution.get_pokemon_evolution_chain Sample.online "Tapu Koko")
     = ["https://pokeapi.co/api/v2/pokemon/tapu koko"]
  /\ requests_of (Compare.compare_pokemon Sample.online ["pikachu"; "Tapu Koko"])
     = ["https://pokeapi.co/api/v2/pokemon/pikachu";
        "https://pokeapi.co/api/v2/pokemon/tapu koko"]
  /\ requests_of (Server.get_pokemon_pokedex_info Sample.online "Tapu Koko")
     = ["https://pokeapi.co/api/v2/pokemon/tapu-koko"].
Proof.
  split; [apply evolution_first_request|].
  split; [apply compare_first_request|].
  split; [|repeat split].
  now rewrite get_pokemon_pokedex_info_requests, getPokemonInfo_requests.
Qed.

(** C2: when the lookup of every requested name succeeds with a document
    of six stats, ASCII texts and small stats, [compare_pokemon] requests
    the names in the order given and returns, unflagged, the heading, the
    line of column titles and the line of 80 hyphens, followed by one row
    per requested name in that order; a row is the name padded to 15, the
    types to 20, the six stats to 5 each, the total and a line feed; the
    six stat columns of a row are the six stats of its document in upstream
    order, and its total is their sum. *)
Theorem C2_rows_and_totals
  (w : World) (pokemon : list string) (docs : list Upstream.PokemonDoc) :
  Forall2 (Spec.fetched_six w) pokemon docs ->
  Forall (fun p => Spec.comparable p = true) docs ->
  exists pokemonData,
    run (Compare.compare_pokemon w pokemon)
    = (Returned (Spec.plain_result
         ("Pokemon Comparison:" ++ newline ++ newline
          ++ "Name           Type                HP   ATK  DEF  SPA  SPD  SPE  Total"
          ++ newline
          ++ "--------------------------------------------------------------------------------"
          ++ newline
          ++ fold_right append ""
               (map (fun e =>
                 JS.padEnd 15 (Compare.name e)
                 ++ JS.padEnd 20 (Compare.types e)
                 ++ JS.padEnd 5 (JS.num_to_string (Compare.hp (Compare.stats e)))
                 ++ JS.padEnd 5 (JS.num_to_string (Compare.attack (Compare.stats e)))
                 ++ JS.padEnd 5 (JS.num_to_string (Compare.defense (Compare.stats e)))
                 ++ JS.padEnd 5 (JS.num_to_string (Compare.specialAttack (Compare.stats e)))
                 ++ JS.padEnd 5 (JS.num_to_string (Compare.specialDefense (Compare.stats e)))
                 ++ JS.padEnd 5 (JS.num_to_string (Compare.speed (Compare.stats e)))
                 ++ JS.num_to_string (Compare.total e) ++ newline)
                    pokemonData))),
       map (fun name => api ++ "/pokemon/" ++ JS.toLowerCase name) pokemon)
    /\ Forall2 Spec.row_of docs pokemonData
    /\ List.length pokemonData = List.length pokemon.
Proof.
  intros H _.
  destruct (fetch_all_six w pokemon docs H [] []) as (rows & Hrun & Hrows).
  exists rows. split; [|split; [exact Hrows|]].
  - unfold run, Compare.compare_pokemon, Compare.compare_pokemon_try, try_catch, bind.
    rewrite Hrun. cbn [app ret]. unfold Compare.table. rewrite table_rows.
    reflexivity.
  - rewrite <- (Forall2_length Hrows). symmetry. apply (Forall2_length H).
Qed.

Lemma C2_witness :
  exists pokemonData,
    run (Compare.compare_pokemon Sample.online ["pikachu"; "Bulbasaur"])
    = (Returned (Spec.plain_result
         ("Pokemon Comparison:" ++ newline ++ newline
          ++ "Name           Type                HP   ATK  DEF  SPA  SPD  SPE  Total"
          ++ newline
          ++ "--------------------------------------------------------------------------------"
          ++ newline
          ++ fold_right append ""
               (map (fun e =>
                 JS.padEnd 15 (Compare.name e)
                 ++ JS.padEnd 20 (Compare.types e)
                 ++ JS.padEnd 5 (JS.num_to_string (Compare.hp (Compare.stats e)))
                 ++ JS.padEnd 5 (JS.num_to_string (Compare.attack (Compare.stats e)))
                 ++ JS.padEnd 5 (JS.num_to_string (Compare.defense (Compare.stats e)))
                 ++ JS.padEnd 5 (JS.num_to_string (Compare.specialAttack (Compare.stats e)))
                 ++ JS.padEnd 5 (JS.num_to_string (Compare.specialDefense (Compare.stats e)))
                 ++ JS.padEnd 5 (JS.num_to_string (Compare.speed (Compare.stats e)))
                 ++ JS.num_to_string (Compare.total e) ++ newline)
                    pokemonData))),
       map (fun name => api ++ "/pokemon/" ++ JS.toLowerCase name)
           ["pikachu"; "Bulbasaur"])
    /\ Forall2 Spec.row_of [Sample.pikachu; Sample.bulbasaur] pokemonData
    /\ List.length pokemonData = List.length ["pikachu"; "Bulbasaur"].
Proof.
  apply (C2_rows_and_totals Sample.online ["pikachu"; "Bulbasaur"]
           [Sample.pikachu; Sample.bulbasaur]).
  - constructor; [|constructor; [|constructor]].
    + eexists. repeat split; reflexivity.
    + eexists. repeat split; reflexivity.
  - repeat constructor.
Defined.

(** ** The evolution chain *)

Section EvolutionChain.

(** Induction on a chain, with the property for every child. *)
Lemma EvolutionNode_children_ind (P : Upstream.EvolutionNode -> Prop) :
  (forall species_name evolves_to,
      Forall P evolves_to -> P (Upstream.Link species_name evolves_to)) ->
  forall chain, P chain.
Proof.
  intros H.
  exact (fix go (chain : Upstream.EvolutionNode) : P chain :=
           match chain with
           | Upstream.Link n cs =>
               H n cs ((fix children (l : list Upstream.EvolutionNode) : Forall P l :=
                          match l with
                          | [] => Forall_nil P
                          | c :: l' => Forall_cons c (go c) (children l')
                          end) cs)
           end).
Qed.

(** The loop over [evolves_to] is a left fold. *)
Lemma loop_fold (level : nat) (l : list Upstream.EvolutionNode) (result : list string) :
  (fix loop (rest : list Upstream.EvolutionNode) (result : list string) :=
     match rest with
     | [] => result
     | evolution :: rest' =>
         loop rest' (result ++ Evolution.parseEvolutionChain evolution (level + 1))%list
     end) l result
  = fold_left
      (fun result evolution =>
         (result ++ Evolution.parseEvolutionChain evolution (level + 1))%list)
      l result.
Proof.
  revert result. induction l as [|c cs IH]; intros result; [reflexivity|].
  cbn [fold_left]. apply IH.
Qed.

(** One unfolding of [parseEvolutionChain]. *)
Lemma parseEvolutionChain_eq (species_name : string)
  (evolves_to : list Upstream.EvolutionNode) (level : nat) :
  Evolution.parseEvolutionChain (Upstream.Link species_name evolves_to) level
  = fold_left
      (fun result evolution =>
         (result ++ Evolution.parseEvolutionChain evolution (level + 1))%list)
      evolves_to
      [JS.repeat "  " level ++ bullet ++ " " ++ capitalize species_name].
Proof.
  transitivity
    (if Nat.ltb 0 (List.length evolves_to)
     then fold_left
            (fun result evolution =>
               (result ++ Evolution.parseEvolutionChain evolution (level + 1))%list)
            evolves_to
            [JS.repeat "  " level ++ bullet ++ " " ++ capitalize species_name]
     else [JS.repeat "  " level ++ bullet ++ " " ++ capitalize species_name]).
  - cbn [Evolution.parseEvolutionChain].
    destruct (Nat.ltb 0 (List.length evolves_to)); [apply loop_fold | reflexivity].
  - destruct evolves_to; reflexivity.
Qed.

Lemma fold_left_concat {A B} (f : A -> list B) (l : list A) (acc : list B) :
  fold_left (fun result x => (result ++ f x)%list) l acc
  = (acc ++ flat_map f l)%list.
Proof.
  revert acc. induction l as [|x l IH]; intros acc; cbn.
  - now rewrite app_nil_r.
  - now rewrite IH, app_assoc.
Qed.

Lemma parseEvolutionChain_children (species_name : string)
  (evolves_to : list Upstream.EvolutionNode) (level : nat) :
  Evolution.parseEvolutionChain (Upstream.Link species_name evolves_to) level
  = (JS.repeat "  " level ++ bullet ++ " " ++ capitalize species_name)
    :: flat_map (fun evolution => Evolution.parseEvolutionChain evolution (S level))
         evolves_to.
Proof.
  rewrite parseEvolutionChain_eq, fold_left_concat. cbn [app].
  now rewrite Nat.add_1_r.
Qed.

Lemma parseEvolutionChain_preorder (chain : Upstream.EvolutionNode) :
  forall level,
    Evolution.parseEvolutionChain chain level
    = map Spec.line (Spec.preorder chain level).
Proof.
  induction chain as [species_name evolves_to IH] using EvolutionNode_children_ind.
  intros level. rewrite parseEvolutionChain_children. cbn [Spec.preorder map].
  f_equal. induction IH as [|c cs Hc _ IHcs]; [reflexivity|].
  cbn [flat_map]. now rewrite map_app, Hc, IHcs.
Qed.

End EvolutionChain.


(** ** The listing searches *)

Section Listings.

Lemma slice_last_but_one {A} (l : list A) (x y : A) :
  JS.slice (l ++ [x; y]) (-2) (-1) = [x].
Proof.
  unfold JS.slice. rewrite length_app. cbn [List.length].
  change (-2 <? 0) with true. change (-1 <? 0) with true. cbv iota.
  replace (Z.to_nat (Z.max (Z.of_nat (List.length l + 2) + -2) 0)) with (List.length l) by lia.
  replace (Z.to_nat (Z.max (Z.of_nat (List.length l + 2) + -1) 0
                     - Z.max (Z.of_nat (List.length l + 2) + -2) 0)) with 1%nat by lia.
  rewrite skipn_app, skipn_all, Nat.sub_diag. reflexivity.
Qed.

Lemma split_of_member_url (prefix id : string) :
  Spec.free_of "/" id = true ->
  JS.split "/" (prefix ++ "/" ++ id ++ "/") = (JS.split "/" prefix ++ [id; ""])%list.
Proof.
  intros Hid.
  change (prefix ++ "/" ++ id ++ "/") with (prefix ++ String "/" (id ++ String "/" "")).
  now rewrite !split_app, (split_free "/" id Hid).
Qed.

Lemma drop_trailing_empty_snoc (l : list string) (x : string) :
  Spec.drop_trailing_empty (l ++ [x; ""]) = (l ++ [x])%list.
Proof.
  unfold Spec.drop_trailing_empty. rewrite rev_app_distr. cbn [rev app].
  now rewrite rev_involutive.
Qed.

Lemma last_nonempty_snoc (l : list string) (x : string) :
  x <> "" -> Spec.last_nonempty (l ++ [x]) = Some x.
Proof.
  intros Hx. unfold Spec.last_nonempty. rewrite rev_app_distr. cbn [rev app find].
  destruct (String.eqb_spec x ""); [contradiction | reflexivity].
Qed.

Lemma slice_kept {A} (l : list A) (limit : Z) :
  JS.slice l 0 limit = Spec.kept l limit.
Proof.
  unfold JS.slice, Spec.kept. change (0 <? 0) with false. cbv iota.
  rewrite (Z.min_l 0) by lia. cbn [Z.to_nat skipn]. rewrite Z.sub_0_r.
  destruct (Z.ltb_spec limit 0) as [Hneg|Hpos].
  - f_equal. lia.
  - destruct (Z.le_gt_cases limit (Z.of_nat (List.length l))) as [Hle|Hgt].
    + now rewrite Z.min_l.
    + rewrite Z.min_r, Nat2Z.id, firstn_all by lia.
      symmetry. apply firstn_all2. lia.
Qed.

End Listings.

(** C9: on a URL made of anything, a slash, an identifier without slash
    that is not empty, and a final slash, the expression of the code and
    the procedure of the description both give the identifier; so they
    agree, for the entries of the type search and of the generation search
    alike, which are made by the same expression. *)
Theorem C9_id_of_member_url (prefix id : string) :
  id <> "" ->
  Spec.free_of "/" id = true ->
  let url := prefix ++ "/" ++ id ++ "/" in
  Search.id_of_url url = Some id
  /\ Spec.id_of_url url = Some id
  /\ Search.id_of_url url = Spec.id_of_url url
  /\ forall name,
       Search.entry {| Upstream.member_name := name; Upstream.member_url := url |}
       = {| Search.name := capitalize name; Search.id := Spec.id_of_url url |}.
Proof.
  intros Hne Hfree url.
  assert (Hcode : Search.id_of_url url = Some id).
  { unfold Search.id_of_url, url.
    now rewrite split_of_member_url, slice_last_but_one. }
  assert (Hspec : Spec.id_of_url url = Some id).
  { unfold Spec.id_of_url, url.
    rewrite split_of_member_url, drop_trailing_empty_snoc by assumption.
    now apply last_nonempty_snoc. }
  split; [exact Hcode|]. split; [exact Hspec|]. split; [congruence|].
  intros name. unfold Search.entry.
  cbn [Upstream.member_name Upstream.member_url]. now rewrite Hcode, Hspec.
Qed.

Lemma C9_witness :
  let url := "https://pokeapi.co/api/v2/pokemon" ++ "/" ++ "25" ++ "/" in
  Search.id_of_url url = Some "25"
  /\ Spec.id_of_url url = Some "25"
  /\ Search.id_of_url url = Spec.id_of_url url
  /\ forall name,
       Search.entry {| Upstream.member_name := name; Upstream.member_url := url |}
       = {| Search.name := capitalize name; Search.id := Spec.id_of_url url |}.
Proof.
  apply (C9_id_of_member_url "https://pokeapi.co/api/v2/pokemon" "25").
  - discriminate.
  - reflexivity.
Defined.

(** C10: when the listing is fetched, both searches keep exactly
    [slice(0, limit)] of it: the first [limit] entries, none for the limit
    0 (an unflagged result with the heading "Found 0" and no entry), and
    all but the last [k] for the limit [-k]; no limit is refused or taken
    as unlimited.  The text is the heading with the count, an empty line,
    and one line per kept entry: the bullet, the capitalized name and the
    identifier between "(#" and ")".  The generation is an exact integer. *)
Theorem C10_limit_is_a_slice
  (w : World) (type : string) (generation limit : Z)
  (of_type of_generation : list Upstream.Member) (rt rg : Upstream.Response) :
  fetch w (api ++ "/type/" ++ JS.toLowerCase type) = Upstream.Resolved rt ->
  Upstream.ok rt = true ->
  Upstream.body rt = Upstream.Json (Upstream.DType of_type) ->
  Domain.integer generation = true ->
  fetch w (api ++ "/generation/" ++ JS.num_to_string generation) = Upstream.Resolved rg ->
  Upstream.ok rg = true ->
  Upstream.body rg = Upstream.Json (Upstream.DGeneration of_generation) ->
  let found (l : list Upstream.Member) := Search.entries l limit in
  let entry (p : Upstream.Member) :=
    {| Search.name := capitalize (Upstream.member_name p);
       Search.id := Search.id_of_url (Upstream.member_url p) |} in
  let listing (entries : list Search.Entry) :=
    JS.join newline
      (map (fun p => "• " ++ Search.name p ++ " (#" ++ JS.opt_to_string (Search.id p) ++ ")")
           entries) in
  result_of (Search.search_pokemon_by_type w type (Some limit))
  = Returned (Spec.plain_result
      ("Found " ++ JS.num_to_string (Z.of_nat (List.length (found of_type))) ++ " "
       ++ capitalize type ++ " type Pokemon:" ++ newline ++ newline
       ++ listing (found of_type)))
  /\ result_of (Search.search_pokemon_by_generation w generation (Some limit))
     = Returned (Spec.plain_result
         ("Found " ++ JS.num_to_string (Z.of_nat (List.length (found of_generation)))
          ++ " Pokemon from Generation " ++ JS.num_to_string generation ++ ":"
          ++ newline ++ newline ++ listing (found of_generation)))
  /\ (forall l, found l = map entry (JS.slice l 0 limit))
  /\ (forall l, limit = 0 ->
        found l = []
        /\ "Found " ++ JS.num_to_string (Z.of_nat (List.length (found l))) = "Found 0"
        /\ listing (found l) = "")
  /\ (forall l, limit < 0 ->
        found l = map entry (firstn (List.length l - Z.to_nat (- limit)) l)
        /\ Z.of_nat (List.length (found l))
           = Z.max 0 (Z.of_nat (List.length l) - - limit))
  /\ (forall l, 0 <= limit -> found l = map entry (firstn (Z.to_nat limit) l)).
Proof.
  intros Hft Hokt Hbt _ Hfg Hokg Hbg found entry listing.
  split; [|split].
  - unfold result_of, run, Search.search_pokemon_by_type,
      Search.search_pokemon_by_type_try, try_catch, bind, do_fetch, check_ok.
    rewrite Hft, Hokt. cbn [negb ret]. unfold response_json. rewrite Hbt. reflexivity.
  - unfold result_of, run, Search.search_pokemon_by_generation,
      Search.search_pokemon_by_generation_try, try_catch, bind, do_fetch, check_ok.
    rewrite Hfg, Hokg. cbn [negb ret]. unfold response_json. rewrite Hbg. reflexivity.
  - unfold found, Search.entries.
    change Search.entry with entry.
    split; [reflexivity|]. split; [|split].
    + intros l ->. rewrite slice_kept. now cbn.
    + intros l Hneg. rewrite slice_kept. unfold Spec.kept.
      destruct (Z.ltb_spec limit 0); [|lia]. split; [reflexivity|].
      rewrite length_map, length_firstn. lia.
    + intros l Hpos. rewrite slice_kept. unfold Spec.kept.
      destruct (Z.ltb_spec limit 0); [lia | reflexivity].
Qed.

Lemma C10_witness :
  let found (l : list Upstream.Member) := Search.entries l (-1) in
  let entry (p : Upstream.Member) :=
    {| Search.name := capitalize (Upstream.member_name p);
       Search.id := Search.id_of_url (Upstream.member_url p) |} in
  let listing (entries : list Search.Entry) :=
    JS.join newline
      (map (fun p => "• " ++ Search.name p ++ " (#" ++ JS.opt_to_string (Search.id p) ++ ")")
           entries) in
  result_of (Search.search_pokemon_by_type Sample.online "Fire" (Some (-1)))
  = Returned (Spec.plain_result
      ("Found " ++ JS.num_to_string (Z.of_nat (List.length (found Sample.fire))) ++ " "
       ++ capitalize "Fire" ++ " type Pokemon:" ++ newline ++ newline
       ++ listing (found Sample.fire)))
  /\ result_of (Search.search_pokemon_by_generation Sample.online 1 (Some (-1)))
     = Returned (Spec.plain_result
         ("Found " ++ JS.num_to_string (Z.of_nat (List.length (found Sample.generation_1)))
          ++ " Pokemon from Generation " ++ JS.num_to_string 1 ++ ":"
          ++ newline ++ newline ++ listing (found Sample.generation_1)))
  /\ (forall l, found l = map entry (JS.slice l 0 (-1)))
  /\ (forall l, -1 = 0 ->
        found l = []
        /\ "Found " ++ JS.num_to_string (Z.of_nat (List.length (found l))) = "Found 0"
        /\ listing (found l) = "")
  /\ (forall l, -1 < 0 ->
        found l = map entry (firstn (List.length l - Z.to_nat (- -1)) l)
        /\ Z.of_nat (List.length (found l))
           = Z.max 0 (Z.of_nat (List.length l) - - -1))
  /\ (forall l, 0 <= -1 -> found l = map entry (firstn (Z.to_nat (-1)) l)).
Proof.
  exact (C10_limit_is_a_slice Sample.online "Fire" 1 (-1)
           Sample.fire Sample.generation_1
           {| Upstream.status := 200;
              Upstream.body := Upstream.Json (Upstream.DType Sample.fire) |}
           {| Upstream.status := 200;
              Upstream.body := Upstream.Json (Upstream.DGeneration Sample.generation_1) |}
           eq_refl eq_refl eq_refl eq_refl eq_refl eq_refl eq_refl).
Defined.

(** ** The handlers on the sample upstream *)

Example capitalize_pikachu : capitalize "pikachu" = "Pikachu".
Proof. reflexivity. Qed.

Example split_member_url :
  JS.split "/" "https://pokeapi.co/api/v2/pokemon/25/"
  = ["https:"; ""; "pokeapi.co"; "api"; "v2"; "pokemon"; "25"; ""].
Proof. reflexivity. Qed.

Example pikachu_info :
  run (Server.get_pokemon_pokedex_info Sample.online "Pikachu")
  = (Returned (success "Pikachu (#25) - Electric type, 0.4m tall, 6kg"),
     ["https://pokeapi.co/api/v2/pokemon/pikachu"]).
Proof. reflexivity. Qed.

Example fire_limit_0 :
  result_of (Search.search_pokemon_by_type Sample.online "fire" (Some 0))
  = Returned (success ("Found 0 Fire type Pokemon:" ++ newline ++ newline)).
Proof. reflexivity. Qed.

Example fire_limit_minus_1 :
  result_of (Search.search_pokemon_by_type Sample.online "fire" (Some (-1)))
  = Returned (success ("Found 2 Fire type Pokemon:" ++ newline ++ newline
                       ++ bullet ++ " Charmander (#4)" ++ newline
                       ++ bullet ++ " Charmeleon (#5)")).
Proof. reflexivity. Qed.

Example fire_limit_minus_5 :
  result_of (Search.search_pokemon_by_type Sample.online "fire" (Some (-5)))
  = Returned (success ("Found 0 Fire type Pokemon:" ++ newline ++ newline)).
Proof. reflexivity. Qed.

Example bulbasaur_chain_text :
  run (Evolution.get_pokemon_evolution_chain Sample.online "bulbasaur")
  = (Returned (success ("Evolution chain for Bulbasaur:" ++ newline ++ newline
                        ++ bullet ++ " Bulbasaur" ++ newline
                        ++ "  " ++ bullet ++ " Ivysaur" ++ newline
                        ++ "    " ++ bullet ++ " Venusaur")),
     ["https://pokeapi.co/api/v2/pokemon/bulbasaur";
      "https://pokeapi.co/api/v2/pokemon-species/1/";
      "https://pokeapi.co/api/v2/evolution-chain/1/"]).
Proof. reflexivity. Qed.

Example compare_totals :
  result_of (Compare.compare_pokemon Sample.online ["pikachu"; "bulbasaur"])
  = Returned (success
      (Compare.header
       ++ "Pikachu        Electric            35   55   40   50   50   90   320" ++ newline
       ++ "Bulbasaur      Grass, Poison       45   49   49   65   65   45   318" ++ newline)).
Proof. reflexivity. Qed.

(** Fewer than six stats: reading [base_stat] of the missing element throws,
    and the handler reports it. *)
Example compare_short_stats :
  let short := {| Upstream.id := 1; Upstream.name := "x"; Upstream.height := 1;
                  Upstream.weight := 1; Upstream.types := [];
                  Upstream.stats := [1; 2; 3];
                  Upstream.species_url := "" |} in
  let w := {| fetch := fun _ => Sample.respond 200 (Upstream.Json (Upstream.DPokemon short));
              type_error_message := Sample.engine_type_error;
              zod_error_message := fun _ => "Invalid input" |} in
  result_of (Compare.compare_pokemon w ["x"; "y"])
  = Returned (failure "Error comparing Pokemon: Cannot read properties of undefined (reading 'base_stat')").
Proof. reflexivity. Qed.

(** * Further properties of the code *)

(** ** Characters and names *)

Section Characters.

Lemma upper_char_idempotent (c : ascii) : JS.upper_char (JS.upper_char c) = JS.upper_char c.
Proof. destruct c as [[] [] [] [] [] [] [] []]; reflexivity. Qed.

Lemma lower_char_not_upper (c : ascii) : JS.is_upper (JS.lower_char c) = false.
Proof. destruct c as [[] [] [] [] [] [] [] []]; reflexivity. Qed.

Lemma lower_upper_char (c : ascii) : JS.lower_char (JS.upper_char c) = JS.lower_char c.
Proof. destruct c as [[] [] [] [] [] [] [] []]; reflexivity. Qed.

Lemma capitalize_cons (c : ascii) (s : string) :
  capitalize (String c s) = String (JS.upper_char c) s.
Proof. reflexivity. Qed.

Lemma length_append (a b : string) :
  String.length (a ++ b) = (String.length a + String.length b)%nat.
Proof. induction a as [|c a IH]; simpl; [reflexivity | now rewrite IH]. Qed.

Lemma length_map_chars (f : ascii -> ascii) (s : string) :
  String.length (JS.map_chars f s) = String.length s.
Proof. induction s as [|c s IH]; simpl; [reflexivity | now rewrite IH]. Qed.

Lemma replace_ws_from_normalized (s : string) :
  forall in_run, Spec.normalized (JS.replace_ws_from in_run (JS.toLowerCase s)) = true.
Proof.
  unfold JS.toLowerCase.
  induction s as [|c s IH]; intros in_run; [reflexivity|].
  cbn [JS.map_chars JS.replace_ws_from].
  destruct (JS.is_space (JS.lower_char c)) eqn:Hs.
  - destruct in_run; [apply IH|].
    cbn [Spec.normalized]. rewrite IH. reflexivity.
  - cbn [Spec.normalized]. now rewrite lower_char_not_upper, Hs, IH.
Qed.

Lemma length_replace_ws_from (s : string) :
  forall in_run, (String.length (JS.replace_ws_from in_run s) <= String.length s)%nat.
Proof.
  induction s as [|c s IH]; intros in_run; [apply Nat.le_refl|].
  cbn [JS.replace_ws_from].
  pose proof (IH true) as Ht. pose proof (IH false) as Hf.
  destruct (JS.is_space c); [destruct in_run|]; cbn [String.length]; lia.
Qed.

(** A second white-space character after a first one leaves no trace. *)
Lemma replace_ws_from_run (a b : string) (c1 c2 : ascii) :
  JS.is_space c1 = true -> JS.is_space c2 = true ->
  forall in_run,
    JS.replace_ws_from in_run (a ++ String c1 (String c2 b))
    = JS.replace_ws_from in_run (a ++ String c1 b).
Proof.
  intros H1 H2. induction a as [|c a IH]; intros in_run.
  - cbn [append JS.replace_ws_from]. rewrite H1, H2. now destruct in_run.
  - cbn [append JS.replace_ws_from].
    destruct (JS.is_space c); [destruct in_run|]; now rewrite IH.
Qed.

Lemma map_chars_append (f : ascii -> ascii) (a b : string) :
  JS.map_chars f (a ++ b) = JS.map_chars f a ++ JS.map_chars f b.
Proof. induction a as [|c a IH]; simpl; [reflexivity | now rewrite IH]. Qed.

Lemma toLowerCase_toUpperCase (s : string) :
  JS.toLowerCase (JS.toUpperCase s) = JS.toLowerCase s.
Proof.
  unfold JS.toLowerCase, JS.toUpperCase.
  induction s as [|c s IH]; simpl; [reflexivity|].
  now rewrite lower_upper_char, IH.
Qed.

End Characters.

(** X1: on ASCII text [capitalize] changes the first character only, and
    only when it is one of a-z, which it replaces by the letter 32 codes
    below; so it keeps the length and everything after the first
    character, gives the empty string only for the empty string, and
    applying it twice is applying it once. *)
Theorem X1_capitalize_first_character_only (s : string) :
  Domain.ascii s = true ->
  capitalize (capitalize s) = capitalize s
  /\ String.length (capitalize s) = String.length s
  /\ JS.slice1 (capitalize s) = JS.slice1 s
  /\ (capitalize s = "" <-> s = "")
  /\ (forall c rest,
        s = String c rest ->
        capitalize s
        = String (if JS.is_lower c then ascii_of_nat (nat_of_ascii c - 32) else c) rest).
Proof.
  intros _. destruct s as [|c s].
  - repeat split; try reflexivity. discriminate.
  - rewrite !capitalize_cons, upper_char_idempotent.
    repeat split; try discriminate.
    intros c' rest [= <- <-]. reflexivity.
Qed.

Lemma X1_witness :
  capitalize (capitalize "pikachu") = capitalize "pikachu"
  /\ String.length (capitalize "pikachu") = String.length "pikachu"
  /\ JS.slice1 (capitalize "pikachu") = JS.slice1 "pikachu"
  /\ (capitalize "pikachu" = "" <-> "pikachu" = "")
  /\ (forall c rest,
        "pikachu" = String c rest ->
        capitalize "pikachu"
        = String (if JS.is_lower c then ascii_of_nat (nat_of_ascii c - 32) else c) rest).
Proof. exact (X1_capitalize_first_character_only "pikachu" eq_refl). Defined.

(** X2: for an ASCII name, the slug that [getPokemonInfo] looks up has no
    upper-case letter and no white space, is never longer than the name,
    and normalizing it again changes nothing. *)
Theorem X2_normalize_is_idempotent (name : string) :
  Domain.ascii name = true ->
  Spec.normalized (Server.normalize name) = true
  /\ Server.normalize (Server.normalize name) = Server.normalize name
  /\ (String.length (Server.normalize name) <= String.length name)%nat.
Proof.
  intros _.
  assert (H : Spec.normalized (Server.normalize name) = true)
    by apply replace_ws_from_normalized.
  split; [exact H|]. split; [now apply normalize_fixed|].
  unfold Server.normalize, JS.replace_ws.
  etransitivity; [apply length_replace_ws_from|].
  unfold JS.toLowerCase. now rewrite length_map_chars.
Qed.

Lemma X2_witness :
  Spec.normalized (Server.normalize "Mr.  Mime") = true
  /\ Server.normalize (Server.normalize "Mr.  Mime") = Server.normalize "Mr.  Mime"
  /\ (String.length (Server.normalize "Mr.  Mime") <= String.length "Mr.  Mime")%nat.
Proof. exact (X2_normalize_is_idempotent "Mr.  Mime" eq_refl). Defined.

(** X3: white space is collapsed but not trimmed: a white-space character
    that follows another one does not change the slug, and a name that
    starts with white space gets a slug that starts with a hyphen. *)
Theorem X3_white_space_is_collapsed_not_trimmed
  (before after : string) (c1 c2 : ascii) :
  JS.is_space c1 = true ->
  JS.is_space c2 = true ->
  Server.normalize (before ++ String c1 (String c2 after))
  = Server.normalize (before ++ String c1 after)
  /\ (exists rest, Server.normalize (String c1 after) = String "-" rest)
  /\ Server.normalize (String c1 EmptyString) = "-".
Proof.
  intros H1 H2.
  assert (L1 : JS.is_space (JS.lower_char c1) = true) by now rewrite lower_char_space.
  assert (L2 : JS.is_space (JS.lower_char c2) = true) by now rewrite lower_char_space.
  split; [|split].
  - unfold Server.normalize, JS.replace_ws, JS.toLowerCase.
    rewrite !map_chars_append. cbn [JS.map_chars].
    now apply replace_ws_from_run.
  - unfold Server.normalize, JS.replace_ws, JS.toLowerCase.
    cbn [JS.map_chars JS.replace_ws_from]. rewrite L1. eexists. reflexivity.
  - unfold Server.normalize, JS.replace_ws, JS.toLowerCase.
    cbn [JS.map_chars JS.replace_ws_from]. rewrite L1. reflexivity.
Qed.

Lemma X3_witness :
  Server.normalize ("mr." ++ String " " (String " " "mime"))
  = Server.normalize ("mr." ++ String " " "mime")
  /\ (exists rest, Server.normalize (String " " "mime") = String "-" rest)
  /\ Server.normalize (String " " EmptyString) = "-".
Proof.
  exact (X3_white_space_is_collapsed_not_trimmed "mr." "mime" " " " " eq_refl eq_refl).
Defined.

(** X4: the lookup of [get_pokemon_info] does not depend on the case of
    an ASCII name: two such names with the same lower-case form, such as a
    name and its upper-case form, send the same request, and when one of
    them is answered with a description the other one gets the same
    description. *)
Theorem X4_lookup_ignores_case (w : World) (a b : string) :
  Domain.ascii a = true ->
  Domain.ascii b = true ->
  JS.toLowerCase a = JS.toLowerCase b ->
  requests_of (Server.get_pokemon_pokedex_info w a)
  = requests_of (Server.get_pokemon_pokedex_info w b)
  /\ (forall t,
        result_of (Server.get_pokemon_pokedex_info w a) = Returned (success t) ->
        result_of (Server.get_pokemon_pokedex_info w b) = Returned (success t))
  /\ JS.toLowerCase (JS.toUpperCase a) = JS.toLowerCase a.
Proof.
  intros _ _ H.
  assert (Hn : Server.normalize a = Server.normalize b)
    by (unfold Server.normalize; now rewrite H).
  split; [|split; [|apply toLowerCase_toUpperCase]].
  - now rewrite !get_pokemon_pokedex_info_requests, !getPokemonInfo_requests, Hn.
  - intros t.
    unfold result_of, run, Server.get_pokemon_pokedex_info,
      Server.get_pokemon_pokedex_info_try, Server.getPokemonInfo, try_catch, bind, do_fetch.
    rewrite Hn.
    destruct (fetch w _) as [r|e]; cbn [fst]; [|destruct e; discriminate].
    destruct (negb (Upstream.ok r)).
    + destruct (Upstream.status r =? 404); discriminate.
    + cbn [ret]. unfold response_json.
      destruct (Upstream.body r) as [m|d]; [discriminate|].
      destruct d; cbn; try discriminate. trivial.
Qed.

Lemma X4_witness :
  requests_of (Server.get_pokemon_pokedex_info Sample.online "PIKACHU")
  = requests_of (Server.get_pokemon_pokedex_info Sample.online "pikachu")
  /\ (forall t,
        result_of (Server.get_pokemon_pokedex_info Sample.online "PIKACHU")
        = Returned (success t) ->
        result_of (Server.get_pokemon_pokedex_info Sample.online "pikachu")
        = Returned (success t))
  /\ JS.toLowerCase (JS.toUpperCase "PIKACHU") = JS.toLowerCase "PIKACHU".
Proof.
  exact (X4_lookup_ignores_case Sample.online "PIKACHU" "pikachu" eq_refl eq_refl eq_refl).
Defined.

(** ** Answers with a status outside 200-299 *)

Section Refusals.

Variable w : World.

(** The message that [handleApiError] throws for a context and a status. *)
Local Abbreviation refusal context status :=
  (if status =? 404 then context ++ " not found."
   else "Failed to fetch " ++ context ++ ": " ++ JS.num_to_string status).

Lemma status_not_ok (r : Upstream.Response) :
  Upstream.status r < 200 \/ 299 < Upstream.status r -> Upstream.ok r = false.
Proof.
  intros H. unfold Upstream.ok.
  destruct (Z.leb_spec 200 (Upstream.status r)); [|reflexivity].
  destruct (Z.leb_spec (Upstream.status r) 299); [lia | reflexivity].
Qed.

Lemma getPokemonInfo_refused (name : string) (r : Upstream.Response) :
  fetch w (api ++ "/pokemon/" ++ Server.normalize name) = Upstream.Resolved r ->
  Upstream.ok r = false ->
  run (Server.get_pokemon_pokedex_info w name)
  = (Returned (failure
       ("Error getting pokemon info: "
        ++ (if Upstream.status r =? 404
            then "Pokémon " ++ dquote ++ name ++ dquote ++ " not found."
            else "Failed to fetch Pokémon data: " ++ JS.num_to_string (Upstream.status r)))),
     [api ++ "/pokemon/" ++ Server.normalize name]).
Proof.
  intros Hf Hok.
  unfold run, Server.get_pokemon_pokedex_info, Server.get_pokemon_pokedex_info_try,
    Server.getPokemonInfo, try_catch, bind, do_fetch.
  rewrite Hf, Hok. cbn [negb].
  destruct (Upstream.status r =? 404); reflexivity.
Qed.

Lemma search_pokemon_by_type_refused
  (type : string) (limit : option Z) (r : Upstream.Response) :
  fetch w (api ++ "/type/" ++ JS.toLowerCase type) = Upstream.Resolved r ->
  Upstream.ok r = false ->
  run (Search.search_pokemon_by_type w type limit)
  = (Returned (failure
       ("Error searching Pokemon by type: "
        ++ refusal ("Type " ++ dquote ++ type ++ dquote) (Upstream.status r))),
     [api ++ "/type/" ++ JS.toLowerCase type]).
Proof.
  intros Hf Hok.
  unfold run, Search.search_pokemon_by_type, Search.search_pokemon_by_type_try,
    try_catch, bind, do_fetch, check_ok, handleApiError.
  rewrite Hf, Hok. cbn [negb].
  destruct (Upstream.status r =? 404); reflexivity.
Qed.

Lemma search_pokemon_by_generation_refused
  (generation : Z) (limit : option Z) (r : Upstream.Response) :
  fetch w (api ++ "/generation/" ++ JS.num_to_string generation) = Upstream.Resolved r ->
  Upstream.ok r = false ->
  run (Search.search_pokemon_by_generation w generation limit)
  = (Returned (failure
       ("Error searching Pokemon by generation: "
        ++ refusal ("Generation " ++ JS.num_to_string generation) (Upstream.status r))),
     [api ++ "/generation/" ++ JS.num_to_string generation]).
Proof.
  intros Hf Hok.
  unfold run, Search.search_pokemon_by_generation,
    Search.search_pokemon_by_generation_try,
    try_catch, bind, do_fetch, check_ok, handleApiError.
  rewrite Hf, Hok. cbn [negb].
  destruct (Upstream.status r =? 404); reflexivity.
Qed.

Lemma get_pokemon_evolution_chain_refused (name : string) (r : Upstream.Response) :
  fetch w (Shape.pokemon_url name) = Upstream.Resolved r ->
  Upstream.ok r = false ->
  run (Evolution.get_pokemon_evolution_chain w name)
  = (Returned (failure
       ("Error getting evolution chain: "
        ++ refusal ("Pokemon " ++ dquote ++ name ++ dquote) (Upstream.status r))),
     [Shape.pokemon_url name]).
Proof.
  intros Hf Hok.
  unfold run, Evolution.get_pokemon_evolution_chain,
    Evolution.get_pokemon_evolution_chain_try,
    try_catch, bind, do_fetch, check_ok, handleApiError.
  unfold Shape.pokemon_url in Hf. rewrite Hf, Hok. cbn [negb].
  destruct (Upstream.status r =? 404); reflexivity.
Qed.

Lemma fetch_entry_refused (name : string) (r : Upstream.Response) (log : list string) :
  fetch w (Shape.pokemon_url name) = Upstream.Resolved r ->
  Upstream.ok r = false ->
  Compare.fetch_entry w name log
  = (Thrown (ErrorObject (refusal ("Pokemon " ++ dquote ++ name ++ dquote)
                                  (Upstream.status r))),
     (log ++ [Shape.pokemon_url name])%list).
Proof.
  intros Hf Hok.
  unfold Compare.fetch_entry, bind, do_fetch, check_ok, handleApiError.
  unfold Shape.pokemon_url in Hf. rewrite Hf, Hok. cbn [negb].
  destruct (Upstream.status r =? 404); reflexivity.
Qed.

Lemma compare_pokemon_refused (name : string) (others : list string)
  (r : Upstream.Response) :
  fetch w (Shape.pokemon_url name) = Upstream.Resolved r ->
  Upstream.ok r = false ->
  run (Compare.compare_pokemon w (name :: others))
  = (Returned (failure
       ("Error comparing Pokemon: "
        ++ refusal ("Pokemon " ++ dquote ++ name ++ dquote) (Upstream.status r))),
     [Shape.pokemon_url name]).
Proof.
  intros Hf Hok.
  unfold run, Compare.compare_pokemon, Compare.compare_pokemon_try, try_catch.
  cbn [Compare.fetch_all]. unfold bind.
  now rewrite (fetch_entry_refused name r [] Hf Hok).
Qed.

End Refusals.

(** X5: a 404 to the first request of an operation ends it after that one
    request with [isError] true and a text that names what was looked up,
    as the caller wrote it: the name, the type, the generation number (an
    exact integer). *)
Theorem X5_not_found_names_the_lookup
  (w : World) (name type : string) (generation : Z) (limit : option Z)
  (others : list string) :
  Domain.integer generation = true ->
  (Shape.answered w (api ++ "/pokemon/" ++ Server.normalize name) 404 ->
   run (Server.get_pokemon_pokedex_info w name)
   = (Returned (Spec.error_result ("Error getting pokemon info: Pokémon "
                         ++ dquote ++ name ++ dquote ++ " not found.")),
      [api ++ "/pokemon/" ++ Server.normalize name]))
  /\ (Shape.answered w (api ++ "/type/" ++ JS.toLowerCase type) 404 ->
      run (Search.search_pokemon_by_type w type limit)
      = (Returned (Spec.error_result ("Error searching Pokemon by type: Type "
                            ++ dquote ++ type ++ dquote ++ " not found.")),
         [api ++ "/type/" ++ JS.toLowerCase type]))
  /\ (Shape.answered w (api ++ "/generation/" ++ JS.num_to_string generation) 404 ->
      run (Search.search_pokemon_by_generation w generation limit)
      = (Returned (Spec.error_result ("Error searching Pokemon by generation: Generation "
                            ++ JS.num_to_string generation ++ " not found.")),
         [api ++ "/generation/" ++ JS.num_to_string generation]))
  /\ (Shape.answered w (Shape.pokemon_url name) 404 ->
      run (Evolution.get_pokemon_evolution_chain w name)
      = (Returned (Spec.error_result ("Error getting evolution chain: Pokemon "
                            ++ dquote ++ name ++ dquote ++ " not found.")),
         [Shape.pokemon_url name]))
  /\ (Shape.answered w (Shape.pokemon_url name) 404 ->
      run (Compare.compare_pokemon w (name :: others))
      = (Returned (Spec.error_result ("Error comparing Pokemon: Pokemon "
                            ++ dquote ++ name ++ dquote ++ " not found.")),
         [Shape.pokemon_url name])).
Proof.
  intros _.
  assert (Hok : forall r, Upstream.status r = 404 -> Upstream.ok r = false)
    by (intros r Hs; apply status_not_ok; lia).
  repeat split; intros (r & Hf & Hs).
  - rewrite (getPokemonInfo_refused w name r Hf (Hok r Hs)), Hs. cbn [Z.eqb Pos.eqb]. now rewrite ?append_assoc.
  - rewrite (search_pokemon_by_type_refused w type limit r Hf (Hok r Hs)), Hs. cbn [Z.eqb Pos.eqb]. now rewrite ?append_assoc.
  - rewrite (search_pokemon_by_generation_refused w generation limit r Hf (Hok r Hs)), Hs.
    cbn [Z.eqb Pos.eqb]. now rewrite ?append_assoc.
  - rewrite (get_pokemon_evolution_chain_refused w name r Hf (Hok r Hs)), Hs. cbn [Z.eqb Pos.eqb]. now rewrite ?append_assoc.
  - rewrite (compare_pokemon_refused w name others r Hf (Hok r Hs)), Hs. cbn [Z.eqb Pos.eqb]. now rewrite ?append_assoc.
Qed.

(** X6: any other status outside 200-299 to the first request ends the
    operation in the same way, with a text that gives what was looked up
    and the status (the generation and the status are exact integers). *)
Theorem X6_other_status_is_reported
  (w : World) (name type : string) (generation : Z) (limit : option Z)
  (others : list string) (s : Z) :
  Domain.integer generation = true ->
  Domain.integer s = true ->
  s < 200 \/ 299 < s ->
  s <> 404 ->
  (Shape.answered w (api ++ "/pokemon/" ++ Server.normalize name) s ->
   run (Server.get_pokemon_pokedex_info w name)
   = (Returned (Spec.error_result ("Error getting pokemon info: Failed to fetch Pokémon data: "
                         ++ JS.num_to_string s)),
      [api ++ "/pokemon/" ++ Server.normalize name]))
  /\ (Shape.answered w (api ++ "/type/" ++ JS.toLowerCase type) s ->
      run (Search.search_pokemon_by_type w type limit)
      = (Returned (Spec.error_result ("Error searching Pokemon by type: Failed to fetch Type "
                            ++ dquote ++ type ++ dquote ++ ": " ++ JS.num_to_string s)),
         [api ++ "/type/" ++ JS.toLowerCase type]))
  /\ (Shape.answered w (api ++ "/generation/" ++ JS.num_to_string generation) s ->
      run (Search.search_pokemon_by_generation w generation limit)
      = (Returned (Spec.error_result ("Error searching Pokemon by generation: Failed to fetch Generation "
                            ++ JS.num_to_string generation ++ ": " ++ JS.num_to_string s)),
         [api ++ "/generation/" ++ JS.num_to_string generation]))
  /\ (Shape.answered w (Shape.pokemon_url name) s ->
      run (Evolution.get_pokemon_evolution_chain w name)
      = (Returned (Spec.error_result ("Error getting evolution chain: Failed to fetch Pokemon "
                            ++ dquote ++ name ++ dquote ++ ": " ++ JS.num_to_string s)),
         [Shape.pokemon_url name]))
  /\ (Shape.answered w (Shape.pokemon_url name) s ->
      run (Compare.compare_pokemon w (name :: others))
      = (Returned (Spec.error_result ("Error comparing Pokemon: Failed to fetch Pokemon "
                            ++ dquote ++ name ++ dquote ++ ": " ++ JS.num_to_string s)),
         [Shape.pokemon_url name])).
Proof.
  intros _ _ Hrange Hne.
  assert (Hok : forall r, Upstream.status r = s -> Upstream.ok r = false)
    by (intros r Hs; apply status_not_ok; lia).
  assert (H404 : (s =? 404) = false) by now apply Z.eqb_neq.
  repeat split; intros (r & Hf & Hs).
  - rewrite (getPokemonInfo_refused w name r Hf (Hok r Hs)), Hs, H404. now rewrite ?append_assoc.
  - rewrite (search_pokemon_by_type_refused w type limit r Hf (Hok r Hs)), Hs, H404.
    now rewrite ?append_assoc.
  - rewrite (search_pokemon_by_generation_refused w generation limit r Hf (Hok r Hs)),
      Hs, H404.
    now rewrite ?append_assoc.
  - rewrite (get_pokemon_evolution_chain_refused w name r Hf (Hok r Hs)), Hs, H404.
    now rewrite ?append_assoc.
  - rewrite (compare_pokemon_refused w name others r Hf (Hok r Hs)), Hs, H404.
    now rewrite ?append_assoc.
Qed.

Lemma X5_witness :
  run (Server.get_pokemon_pokedex_info Sample.online "Missing No")
  = (Returned (Spec.error_result ("Error getting pokemon info: Pokémon "
                        ++ dquote ++ "Missing No" ++ dquote ++ " not found.")),
     [api ++ "/pokemon/" ++ Server.normalize "Missing No"])
  /\ run (Search.search_pokemon_by_type Sample.online "Shadow" None)
     = (Returned (Spec.error_result ("Error searching Pokemon by type: Type "
                           ++ dquote ++ "Shadow" ++ dquote ++ " not found.")),
        [api ++ "/type/" ++ JS.toLowerCase "Shadow"])
  /\ run (Search.search_pokemon_by_generation Sample.online 99 None)
     = (Returned (Spec.error_result ("Error searching Pokemon by generation: Generation "
                           ++ JS.num_to_string 99 ++ " not found.")),
        [api ++ "/generation/" ++ JS.num_to_string 99]).
Proof.
  destruct (X5_not_found_names_the_lookup Sample.online "Missing No" "Shadow" 99 None []
              eq_refl)
    as (H1 & H2 & H3 & _).
  split; [|split]; [apply H1 | apply H2 | apply H3]; eexists; split; reflexivity.
Defined.

Lemma X6_witness :
  (Shape.answered Shape.online (api ++ "/pokemon/" ++ Server.normalize "busy") 503 ->
   run (Server.get_pokemon_pokedex_info Shape.online "busy")
   = (Returned (Spec.error_result ("Error getting pokemon info: Failed to fetch Pokémon data: "
                         ++ JS.num_to_string 503)),
      [api ++ "/pokemon/" ++ Server.normalize "busy"]))
  /\ (Shape.answered Shape.online (api ++ "/type/" ++ JS.toLowerCase "busy") 503 ->
      run (Search.search_pokemon_by_type Shape.online "busy" None)
      = (Returned (Spec.error_result ("Error searching Pokemon by type: Failed to fetch Type "
                            ++ dquote ++ "busy" ++ dquote ++ ": " ++ JS.num_to_string 503)),
         [api ++ "/type/" ++ JS.toLowerCase "busy"]))
  /\ (Shape.answered Shape.online (api ++ "/generation/" ++ JS.num_to_string 8) 503 ->
      run (Search.search_pokemon_by_generation Shape.online 8 None)
      = (Returned (Spec.error_result ("Error searching Pokemon by generation: Failed to fetch Generation "
                            ++ JS.num_to_string 8 ++ ": " ++ JS.num_to_string 503)),
         [api ++ "/generation/" ++ JS.num_to_string 8]))
  /\ (Shape.answered Shape.online (Shape.pokemon_url "busy") 503 ->
      run (Evolution.get_pokemon_evolution_chain Shape.online "busy")
      = (Returned (Spec.error_result ("Error getting evolution chain: Failed to fetch Pokemon "
                            ++ dquote ++ "busy" ++ dquote ++ ": " ++ JS.num_to_string 503)),
         [Shape.pokemon_url "busy"]))
  /\ (Shape.answered Shape.online (Shape.pokemon_url "busy") 503 ->
      run (Compare.compare_pokemon Shape.online ("busy" :: ["pikachu"]))
      = (Returned (Spec.error_result ("Error comparing Pokemon: Failed to fetch Pokemon "
                            ++ dquote ++ "busy" ++ dquote ++ ": " ++ JS.num_to_string 503)),
         [Shape.pokemon_url "busy"])).
Proof.
  apply (X6_other_status_is_reported Shape.online "busy" "busy" 8 None ["pikachu"] 503).
  - reflexivity.
  - reflexivity.
  - right. reflexivity.
  - discriminate.
Defined.

(** ** The three requests of the evolution chain *)

Section EvolutionStages.

Variable w : World.

Lemma length_parseEvolutionChain (chain : Upstream.EvolutionNode) :
  forall level, List.length (Evolution.parseEvolutionChain chain level) = Shape.size chain.
Proof.
  induction chain as [species_name evolves_to IH] using EvolutionNode_children_ind.
  intros level. rewrite parseEvolutionChain_children.
  cbn [List.length Shape.size]. f_equal.
  induction IH as [|c cs Hc _ IHcs]; [reflexivity|].
  cbn [flat_map]. now rewrite length_app, Hc, IHcs.
Qed.

Lemma repeat_add (s : string) (k n : nat) :
  JS.repeat s (k + n) = JS.repeat s k ++ JS.repeat s n.
Proof.
  induction k as [|k IH]; [reflexivity|].
  cbn [Nat.add JS.repeat]. now rewrite IH, append_assoc.
Qed.

Lemma parseEvolutionChain_shift (k : nat) (chain : Upstream.EvolutionNode) :
  forall level,
    Evolution.parseEvolutionChain chain (k + level)
    = map (append (JS.repeat "  " k)) (Evolution.parseEvolutionChain chain level).
Proof.
  induction chain as [species_name evolves_to IH] using EvolutionNode_children_ind.
  intros level. rewrite !parseEvolutionChain_children. cbn [map].
  rewrite repeat_add, append_assoc. f_equal.
  induction IH as [|c cs Hc _ IHcs]; [reflexivity|].
  cbn [flat_map]. rewrite map_app, <- IHcs. f_equal.
  rewrite <- Hc. f_equal. lia.
Qed.

(** The three stages, one after the other. *)
Lemma evolution_stage_1 (name : string) (p : Upstream.PokemonDoc) :
  Shape.fetched w (Shape.pokemon_url name) (Upstream.DPokemon p) ->
  Evolution.get_pokemon_evolution_chain_try w name []
  = (speciesResponse <- do_fetch w (Upstream.species_url p) ;;
     check_ok speciesResponse ("Species for " ++ dquote ++ name ++ dquote) ;;;
     species <- response_json speciesResponse ;;
     evolution_chain_url <- match species with
                            | Upstream.DSpecies u => ret u
                            | _ => throw (ErrorObject (type_error_message w "url"))
                            end ;;
     evolutionResponse <- do_fetch w evolution_chain_url ;;
     check_ok evolutionResponse ("Evolution chain for " ++ dquote ++ name ++ dquote) ;;;
     evolutionChain <- response_json evolutionResponse ;;
     chain <- match evolutionChain with
              | Upstream.DEvolutionChain c => ret c
              | _ => throw (ErrorObject (type_error_message w "species"))
              end ;;
     let evolutionTree := JS.join newline (Evolution.parseEvolutionChain chain 0) in
     ret (success ("Evolution chain for " ++ capitalize name ++ ":" ++ newline ++ newline
                   ++ evolutionTree)))
      [Shape.pokemon_url name].
Proof.
  intros (r & Hf & Hok & Hb).
  unfold Evolution.get_pokemon_evolution_chain_try.
  unfold bind at 1, do_fetch at 1. unfold Shape.pokemon_url in Hf. rewrite Hf.
  unfold bind at 1, check_ok at 1. rewrite Hok. cbn [negb ret].
  unfold bind at 1, response_json at 1. rewrite Hb. cbn [ret].
  unfold bind at 1. reflexivity.
Qed.

Lemma evolution_stage_2 (name : string) (url u : string) (log : list string) :
  Shape.fetched w url (Upstream.DSpecies u) ->
  (speciesResponse <- do_fetch w url ;;
   check_ok speciesResponse ("Species for " ++ dquote ++ name ++ dquote) ;;;
   species <- response_json speciesResponse ;;
   evolution_chain_url <- match species with
                          | Upstream.DSpecies u => ret u
                          | _ => throw (ErrorObject (type_error_message w "url"))
                          end ;;
   evolutionResponse <- do_fetch w evolution_chain_url ;;
   check_ok evolutionResponse ("Evolution chain for " ++ dquote ++ name ++ dquote) ;;;
   evolutionChain <- response_json evolutionResponse ;;
   chain <- match evolutionChain with
            | Upstream.DEvolutionChain c => ret c
            | _ => throw (ErrorObject (type_error_message w "species"))
            end ;;
   let evolutionTree := JS.join newline (Evolution.parseEvolutionChain chain 0) in
   ret (success ("Evolution chain for " ++ capitalize name ++ ":" ++ newline ++ newline
                 ++ evolutionTree)))
    log
  = (evolutionResponse <- do_fetch w u ;;
     check_ok evolutionResponse ("Evolution chain for " ++ dquote ++ name ++ dquote) ;;;
     evolutionChain <- response_json evolutionResponse ;;
     chain <- match evolutionChain with
              | Upstream.DEvolutionChain c => ret c
              | _ => throw (ErrorObject (type_error_message w "species"))
              end ;;
     let evolutionTree := JS.join newline (Evolution.parseEvolutionChain chain 0) in
     ret (success ("Evolution chain for " ++ capitalize name ++ ":" ++ newline ++ newline
                   ++ evolutionTree)))
      (log ++ [url])%list.
Proof.
  intros (r & Hf & Hok & Hb).
  unfold bind at 1, do_fetch at 1. rewrite Hf.
  unfold bind at 1, check_ok at 1. rewrite Hok. cbn [negb ret].
  unfold bind at 1, response_json at 1. rewrite Hb. cbn [ret].
  unfold bind at 1. reflexivity.
Qed.

(** A request with its status check, refused. *)
Lemma checked_fetch_refused {B} (url context : string) (k : Upstream.Response -> M B)
  (r : Upstream.Response) (log : list string) :
  fetch w url = Upstream.Resolved r ->
  Upstream.ok r = false ->
  (response <- do_fetch w url ;; check_ok response context ;;; k response) log
  = (Thrown (ErrorObject
       (if Upstream.status r =? 404 then context ++ " not found."
        else "Failed to fetch " ++ context ++ ": " ++ JS.num_to_string (Upstream.status r))),
     (log ++ [url])%list).
Proof.
  intros Hf Hok. unfold bind, do_fetch, check_ok, handleApiError.
  rewrite Hf, Hok. cbn [negb]. destruct (Upstream.status r =? 404); reflexivity.
Qed.

End EvolutionStages.

(** X7: when the second or the third request of the evolution chain is
    answered with a 404, the operation stops there, without a further
    request, and its text tells the stage: the species, or the evolution
    chain, of the name as the caller wrote it. *)
Theorem X7_the_failing_stage_is_named
  (w : World) (name : string) (p : Upstream.PokemonDoc) :
  Shape.fetched w (Shape.pokemon_url name) (Upstream.DPokemon p) ->
  (Shape.answered w (Upstream.species_url p) 404 ->
   run (Evolution.get_pokemon_evolution_chain w name)
   = (Returned (failure ("Error getting evolution chain: Species for "
                         ++ dquote ++ name ++ dquote ++ " not found.")),
      [Shape.pokemon_url name; Upstream.species_url p]))
  /\ (forall u,
        Shape.fetched w (Upstream.species_url p) (Upstream.DSpecies u) ->
        Shape.answered w u 404 ->
        run (Evolution.get_pokemon_evolution_chain w name)
        = (Returned (failure ("Error getting evolution chain: Evolution chain for "
                              ++ dquote ++ name ++ dquote ++ " not found.")),
           [Shape.pokemon_url name; Upstream.species_url p; u])).
Proof.
  intros H1.
  assert (Hok : forall r, Upstream.status r = 404 -> Upstream.ok r = false)
    by (intros r Hs; apply status_not_ok; lia).
  split.
  - intros (r & Hf & Hs).
    unfold run, Evolution.get_pokemon_evolution_chain, try_catch.
    rewrite (evolution_stage_1 w name p H1).
    rewrite (checked_fetch_refused w _ _ _ r _ Hf (Hok r Hs)), Hs.
    cbn [Z.eqb Pos.eqb app ret errorMessage]. now rewrite ?append_assoc.
  - intros u H2 (r & Hf & Hs).
    unfold run, Evolution.get_pokemon_evolution_chain, try_catch.
    rewrite (evolution_stage_1 w name p H1), (evolution_stage_2 w name _ u _ H2).
    rewrite (checked_fetch_refused w _ _ _ r _ Hf (Hok r Hs)), Hs.
    cbn [Z.eqb Pos.eqb app ret errorMessage]. now rewrite ?append_assoc.
Qed.

Lemma X7_witness :
  (Shape.answered Shape.online (Upstream.species_url Shape.wide_doc) 404 ->
   run (Evolution.get_pokemon_evolution_chain Shape.online "Mew")
   = (Returned (failure ("Error getting evolution chain: Species for "
                         ++ dquote ++ "Mew" ++ dquote ++ " not found.")),
      [Shape.pokemon_url "Mew"; Upstream.species_url Shape.wide_doc]))
  /\ (forall u,
        Shape.fetched Shape.online (Upstream.species_url Shape.wide_doc)
          (Upstream.DSpecies u) ->
        Shape.answered Shape.online u 404 ->
        run (Evolution.get_pokemon_evolution_chain Shape.online "Mew")
        = (Returned (failure ("Error getting evolution chain: Evolution chain for "
                              ++ dquote ++ "Mew" ++ dquote ++ " not found.")),
           [Shape.pokemon_url "Mew"; Upstream.species_url Shape.wide_doc; u])).
Proof.
  apply (X7_the_failing_stage_is_named Shape.online "Mew" Shape.wide_doc).
  eexists. repeat split; reflexivity.
Defined.

(** X8: when the three requests are answered, the operation has requested
    the Pokemon by its lower-case name, then the species at the URL that the
    first answer gave, then the chain at the URL that the second answer
    gave, and returns, unflagged, the heading with the capitalized name as
    the caller wrote it and the lines of the chain in pre-order, one per
    line. *)
Theorem X8_the_chain_is_followed_by_url
  (w : World) (name : string) (p : Upstream.PokemonDoc) (u : string)
  (chain : Upstream.EvolutionNode) :
  Shape.fetched w (Shape.pokemon_url name) (Upstream.DPokemon p) ->
  Shape.fetched w (Upstream.species_url p) (Upstream.DSpecies u) ->
  Shape.fetched w u (Upstream.DEvolutionChain chain) ->
  run (Evolution.get_pokemon_evolution_chain w name)
  = (Returned (success ("Evolution chain for " ++ capitalize name ++ ":"
                        ++ newline ++ newline
                        ++ JS.join newline (map Spec.line (Spec.preorder chain 0)))),
     [Shape.pokemon_url name; Upstream.species_url p; u]).
Proof.
  intros H1 H2 (r & Hf & Hok & Hb).
  unfold run, Evolution.get_pokemon_evolution_chain, try_catch.
  rewrite (evolution_stage_1 w name p H1), (evolution_stage_2 w name _ u _ H2).
  unfold bind at 1, do_fetch at 1. rewrite Hf.
  unfold bind at 1, check_ok at 1. rewrite Hok. cbn [negb ret].
  unfold bind at 1, response_json at 1. rewrite Hb. cbn [ret].
  unfold bind at 1. cbn [ret app].
  now rewrite parseEvolutionChain_preorder.
Qed.

Lemma X8_witness :
  run (Evolution.get_pokemon_evolution_chain Sample.online "Bulbasaur")
  = (Returned (success ("Evolution chain for " ++ capitalize "Bulbasaur" ++ ":"
                        ++ newline ++ newline
                        ++ JS.join newline
                             (map Spec.line (Spec.preorder Sample.bulbasaur_chain 0)))),
     [Shape.pokemon_url "Bulbasaur"; Upstream.species_url Sample.bulbasaur;
      "https://pokeapi.co/api/v2/evolution-chain/1/"]).
Proof.
  apply (X8_the_chain_is_followed_by_url Sample.online "Bulbasaur" Sample.bulbasaur
           "https://pokeapi.co/api/v2/evolution-chain/1/" Sample.bulbasaur_chain);
    eexists; repeat split; reflexivity.
Defined.

(** X9: the rendering of a chain has one line per species, and rendering
    it [k] levels deeper puts [2 k] more spaces before every line and
    changes nothing else. *)
Theorem X9_one_line_per_species (chain : Upstream.EvolutionNode) (level k : nat) :
  List.length (Evolution.parseEvolutionChain chain level) = Shape.size chain
  /\ Evolution.parseEvolutionChain chain (k + level)
     = map (append (JS.repeat "  " k)) (Evolution.parseEvolutionChain chain level).
Proof.
  split; [apply length_parseEvolutionChain | apply parseEvolutionChain_shift].
Qed.

(** ** The loop of the comparison *)

Section ComparisonLoop.

Variable w : World.

(** The names whose lookups succeed are passed, one request each. *)
Lemma fetch_all_through (before : list string) (docs : list Upstream.PokemonDoc) :
  Forall2 (Spec.fetched_six w) before docs ->
  forall rest pokemonData log,
  exists rows,
    Forall2 Spec.row_of docs rows
    /\ Compare.fetch_all w (before ++ rest) pokemonData log
       = Compare.fetch_all w rest (pokemonData ++ rows)%list
           (log ++ map Shape.pokemon_url before)%list.
Proof.
  induction 1 as [|name p before docs Hhead _ IH]; intros rest pokemonData log.
  - exists []. split; [constructor|]. cbn. now rewrite !app_nil_r.
  - destruct (fetch_entry_six w name p log Hhead) as (e & He & Hrow).
    destruct (IH rest (pokemonData ++ [e])%list
                 (log ++ [Shape.pokemon_url name])%list) as (rows & Hrows & Hall).
    exists (e :: rows). split; [now constructor|].
    cbn [app Compare.fetch_all map]. unfold bind at 1. rewrite He.
    unfold Shape.pokemon_url at 1 in Hall. rewrite Hall.
    now rewrite <- !app_assoc.
Qed.

Lemma entry_of_short (p : Upstream.PokemonDoc) (log : list string) :
  (List.length (Upstream.stats p) < 6)%nat ->
  Compare.entry_of w p log
  = (Thrown (ErrorObject (type_error_message w "base_stat")), log).
Proof.
  intros H. unfold Compare.entry_of.
  destruct (Upstream.stats p) as [|a [|b [|c [|d [|e [|f l]]]]]]; try reflexivity.
  cbn [List.length] in H. lia.
Qed.

Lemma fold_left_sum (l : list Z) (acc : Z) :
  fold_left (fun sum stat => sum + stat) l acc = acc + fold_right Z.add 0 l.
Proof.
  revert acc. induction l as [|x l IH]; intros acc; cbn [fold_left fold_right]; [lia|].
  rewrite IH. lia.
Qed.

Lemma fetch_entry_document (name : string) (p : Upstream.PokemonDoc) (log : list string) :
  Shape.fetched w (Shape.pokemon_url name) (Upstream.DPokemon p) ->
  Compare.fetch_entry w name log
  = Compare.entry_of w p (log ++ [Shape.pokemon_url name])%list.
Proof.
  intros (r & Hf & Hok & Hb).
  unfold Compare.fetch_entry, bind, do_fetch, check_ok.
  unfold Shape.pokemon_url in Hf. rewrite Hf, Hok. cbn [negb ret].
  unfold response_json. rewrite Hb. reflexivity.
Qed.

(** Every element of the loop sends its request, whatever comes of it. *)
Lemma fetch_entry_log (name : string) (log : list string) :
  snd (Compare.fetch_entry w name log) = (log ++ [Shape.pokemon_url name])%list.
Proof.
  unfold Compare.fetch_entry, bind, do_fetch, check_ok, handleApiError, response_json.
  destruct (fetch w _) as [r|e]; [|reflexivity].
  destruct (Upstream.ok r); cbn [negb ret].
  - destruct (Upstream.body r) as [m|d]; [reflexivity|].
    destruct d; try reflexivity.
    unfold Compare.entry_of, Compare.base_stat, bind, ret, throw.
    destruct (Upstream.stats p) as [|a [|b [|c [|d [|e [|f l]]]]]]; reflexivity.
  - destruct (Upstream.status r =? 404); reflexivity.
Qed.

Lemma fetch_all_log (pokemon : list string) :
  forall pokemonData log,
  exists k,
    snd (Compare.fetch_all w pokemon pokemonData log)
    = (log ++ firstn k (map Shape.pokemon_url pokemon))%list.
Proof.
  induction pokemon as [|name rest IH]; intros pokemonData log.
  - exists 0%nat. cbn. now rewrite app_nil_r.
  - cbn [Compare.fetch_all]. unfold bind.
    pose proof (fetch_entry_log name log) as Hlog.
    destruct (Compare.fetch_entry w name log) as [[e|x] log1]; cbn [snd] in Hlog; subst log1.
    + destruct (IH (pokemonData ++ [e])%list (log ++ [Shape.pokemon_url name])%list)
        as (k & Hk).
      exists (S k). rewrite Hk. cbn [map firstn]. now rewrite <- app_assoc.
    + exists 1%nat. reflexivity.
Qed.

End ComparisonLoop.

(** X10: the comparison stops at the first name that the upstream does not
    know: the names before it have been requested, in order, then this
    one, and none after it; the result is the error for this name, and no
    row of the names before it is returned. *)
Theorem X10_comparison_stops_at_first_unknown
  (w : World) (before : list string) (docs : list Upstream.PokemonDoc)
  (unknown : string) (after : list string) :
  Forall2 (Spec.fetched_six w) before docs ->
  Shape.answered w (Shape.pokemon_url unknown) 404 ->
  run (Compare.compare_pokemon w (before ++ unknown :: after))
  = (Returned (failure ("Error comparing Pokemon: Pokemon "
                        ++ dquote ++ unknown ++ dquote ++ " not found.")),
     map Shape.pokemon_url (before ++ [unknown])).
Proof.
  intros Hbefore (r & Hf & Hs).
  assert (Hok : Upstream.ok r = false) by (apply status_not_ok; lia).
  destruct (fetch_all_through w before docs Hbefore (unknown :: after) [] [])
    as (rows & _ & Hrun).
  unfold run, Compare.compare_pokemon, Compare.compare_pokemon_try, try_catch.
  unfold bind at 1. rewrite Hrun. cbn [Compare.fetch_all]. unfold bind at 1.
  rewrite (fetch_entry_refused w unknown r _ Hf Hok), Hs.
  cbn [Z.eqb Pos.eqb app ret errorMessage]. rewrite map_app. cbn [map].
  now rewrite ?append_assoc.
Qed.

Lemma X10_witness :
  run (Compare.compare_pokemon Sample.online (["pikachu"] ++ "Tapu Koko" :: ["bulbasaur"]))
  = (Returned (failure ("Error comparing Pokemon: Pokemon "
                        ++ dquote ++ "Tapu Koko" ++ dquote ++ " not found.")),
     map Shape.pokemon_url (["pikachu"] ++ ["Tapu Koko"])).
Proof.
  apply (X10_comparison_stops_at_first_unknown Sample.online ["pikachu"]
           [Sample.pikachu] "Tapu Koko" ["bulbasaur"]).
  - constructor; [|constructor]. eexists. repeat split; reflexivity.
  - eexists. split; reflexivity.
Defined.

(** X11: a document with fewer than six stats makes the comparison fail:
    reading [base_stat] of the missing element throws, and the operation
    ends with the engine's message after its prefix, at that name, with
    nothing requested after it. *)
Theorem X11_fewer_than_six_stats
  (w : World) (before : list string) (docs : list Upstream.PokemonDoc)
  (name : string) (p : Upstream.PokemonDoc) (after : list string) :
  Forall2 (Spec.fetched_six w) before docs ->
  Shape.fetched w (Shape.pokemon_url name) (Upstream.DPokemon p) ->
  (List.length (Upstream.stats p) < 6)%nat ->
  run (Compare.compare_pokemon w (before ++ name :: after))
  = (Returned (failure ("Error comparing Pokemon: " ++ type_error_message w "base_stat")),
     map Shape.pokemon_url (before ++ [name])).
Proof.
  intros Hbefore Hp Hshort.
  destruct (fetch_all_through w before docs Hbefore (name :: after) [] [])
    as (rows & _ & Hrun).
  unfold run, Compare.compare_pokemon, Compare.compare_pokemon_try, try_catch.
  unfold bind at 1. rewrite Hrun. cbn [Compare.fetch_all]. unfold bind at 1.
  rewrite (fetch_entry_document w name p _ Hp), (entry_of_short w p _ Hshort).
  cbn [app ret errorMessage]. now rewrite map_app.
Qed.

Lemma X11_witness :
  run (Compare.compare_pokemon Shape.online (["pikachu"] ++ "Ditto" :: ["bulbasaur"]))
  = (Returned (failure ("Error comparing Pokemon: "
                        ++ type_error_message Shape.online "base_stat")),
     map Shape.pokemon_url (["pikachu"] ++ ["Ditto"])).
Proof.
  apply (X11_fewer_than_six_stats Shape.online ["pikachu"] [Sample.pikachu]
           "Ditto" Shape.short_doc ["bulbasaur"]).
  - constructor; [|constructor]. eexists. repeat split; reflexivity.
  - eexists. repeat split; reflexivity.
  - cbn. lia.
Defined.

(** X12: of a document with more than six stats, none negative and all
    together below 2^53 so that they add up exactly, the six columns are
    the first six and the total is the sum of all the stats: it exceeds
    the sum of the six columns by the sum of the other stats. *)
Theorem X12_total_sums_every_stat
  (w : World) (name : string) (p : Upstream.PokemonDoc) (log : list string)
  (a b c d e f : Z) (others : list Z) :
  Shape.fetched w (Shape.pokemon_url name) (Upstream.DPokemon p) ->
  Upstream.stats p = a :: b :: c :: d :: e :: f :: others ->
  forallb (Z.leb 0) (Upstream.stats p) = true ->
  Domain.integer (fold_right Z.add 0 (Upstream.stats p)) = true ->
  Compare.fetch_entry w name log
  = (Returned
       {| Compare.name := capitalize (Upstream.name p);
          Compare.id := Upstream.id p;
          Compare.types := JS.join ", " (map capitalize (Upstream.types p));
          Compare.stats := {| Compare.hp := a; Compare.attack := b;
                              Compare.defense := c; Compare.specialAttack := d;
                              Compare.specialDefense := e; Compare.speed := f |};
          Compare.total := (a + b + c + d + e + f) + fold_right Z.add 0 others |},
     (log ++ [Shape.pokemon_url name])%list).
Proof.
  intros Hp Hstats _ _.
  rewrite (fetch_entry_document w name p log Hp).
  assert (Htotal :
    fold_left (fun sum stat => sum + stat) (a :: b :: c :: d :: e :: f :: others) 0
    = (a + b + c + d + e + f) + fold_right Z.add 0 others)
    by (cbn [fold_left]; rewrite fold_left_sum; lia).
  unfold Compare.entry_of. rewrite Hstats, Htotal. reflexivity.
Qed.

Lemma X12_witness :
  Compare.fetch_entry Shape.online "mew" []
  = (Returned
       {| Compare.name := capitalize (Upstream.name Shape.wide_doc);
          Compare.id := Upstream.id Shape.wide_doc;
          Compare.types := JS.join ", " (map capitalize (Upstream.types Shape.wide_doc));
          Compare.stats := {| Compare.hp := 100; Compare.attack := 100;
                              Compare.defense := 100; Compare.specialAttack := 100;
                              Compare.specialDefense := 100; Compare.speed := 100 |};
          Compare.total := (100 + 100 + 100 + 100 + 100 + 100)
                           + fold_right Z.add 0 [7; 8] |},
     ([] ++ [Shape.pokemon_url "mew"])%list).
Proof.
  apply (X12_total_sums_every_stat Shape.online "mew" Shape.wide_doc []
           100 100 100 100 100 100 [7; 8]).
  - eexists. repeat split; reflexivity.
  - reflexivity.
  - reflexivity.
  - reflexivity.
Defined.

(** ** How many requests an operation sends *)

Section RequestCounts.

Variable w : World.

Lemma search_pokemon_by_type_requests (type : string) (limit : option Z) :
  requests_of (Search.search_pokemon_by_type w type limit)
  = [api ++ "/type/" ++ JS.toLowerCase type].
Proof.
  unfold requests_of, run, Search.search_pokemon_by_type,
    Search.search_pokemon_by_type_try, try_catch, bind, do_fetch, check_ok,
    handleApiError, response_json.
  destruct (fetch w _) as [r|e]; [|reflexivity].
  destruct (Upstream.ok r); cbn [negb ret].
  - destruct (Upstream.body r) as [m|d]; [reflexivity|]. destruct d; reflexivity.
  - destruct (Upstream.status r =? 404); reflexivity.
Qed.

Lemma search_pokemon_by_generation_requests (generation : Z) (limit : option Z) :
  requests_of (Search.search_pokemon_by_generation w generation limit)
  = [api ++ "/generation/" ++ JS.num_to_string generation].
Proof.
  unfold requests_of, run, Search.search_pokemon_by_generation,
    Search.search_pokemon_by_generation_try, try_catch, bind, do_fetch, check_ok,
    handleApiError, response_json.
  destruct (fetch w _) as [r|e]; [|reflexivity].
  destruct (Upstream.ok r); cbn [negb ret].
  - destruct (Upstream.body r) as [m|d]; [reflexivity|]. destruct d; reflexivity.
  - destruct (Upstream.status r =? 404); reflexivity.
Qed.

Lemma bounded_ret {A} (a : A) : Shape.bounded 0 (ret a).
Proof. intros log. exists []. split; [cbn; now rewrite app_nil_r | apply Nat.le_refl]. Qed.

Lemma bounded_throw {A} (e : Exn) : Shape.bounded 0 (@throw A e).
Proof. intros log. exists []. split; [cbn; now rewrite app_nil_r | apply Nat.le_refl]. Qed.

Lemma bounded_fetch (url : string) : Shape.bounded 1 (do_fetch w url).
Proof.
  intros log. exists [url]. unfold do_fetch.
  destruct (fetch w url); split; reflexivity || apply Nat.le_refl.
Qed.

Lemma bounded_bind {A B} (n k : nat) (m : M A) (f : A -> M B) :
  Shape.bounded n m -> (forall a, Shape.bounded k (f a)) ->
  Shape.bounded (n + k) (bind m f).
Proof.
  intros Hm Hf log. unfold bind.
  destruct (Hm log) as (added1 & Hs1 & Hn1).
  destruct (m log) as [[a|e] log1]; cbn [snd] in Hs1; subst log1.
  - destruct (Hf a (log ++ added1)%list) as (added2 & Hs2 & Hn2).
    exists (added1 ++ added2)%list. split; [now rewrite Hs2, app_assoc|].
    rewrite length_app. lia.
  - exists added1. split; [reflexivity | lia].
Qed.

Lemma bounded_check_ok (r : Upstream.Response) (context : string) :
  Shape.bounded 0 (check_ok r context).
Proof.
  unfold check_ok, handleApiError.
  destruct (negb (Upstream.ok r)); [|apply bounded_ret].
  destruct (Upstream.status r =? 404); apply bounded_throw.
Qed.

Lemma bounded_response_json (r : Upstream.Response) :
  Shape.bounded 0 (response_json r).
Proof.
  unfold response_json.
  destruct (Upstream.body r); [apply bounded_throw | apply bounded_ret].
Qed.

Lemma get_pokemon_evolution_chain_try_bounded (name : string) :
  Shape.bounded 3 (Evolution.get_pokemon_evolution_chain_try w name).
Proof.
  unfold Evolution.get_pokemon_evolution_chain_try.
  apply (bounded_bind 1 2); [apply bounded_fetch | intros r1].
  apply (bounded_bind 0 2); [apply bounded_check_ok | intros _].
  apply (bounded_bind 0 2); [apply bounded_response_json | intros d1].
  apply (bounded_bind 0 2);
    [destruct d1; apply bounded_ret || apply bounded_throw | intros u1].
  apply (bounded_bind 1 1); [apply bounded_fetch | intros r2].
  apply (bounded_bind 0 1); [apply bounded_check_ok | intros _].
  apply (bounded_bind 0 1); [apply bounded_response_json | intros d2].
  apply (bounded_bind 0 1);
    [destruct d2; apply bounded_ret || apply bounded_throw | intros u2].
  apply (bounded_bind 1 0); [apply bounded_fetch | intros r3].
  apply (bounded_bind 0 0); [apply bounded_check_ok | intros _].
  apply (bounded_bind 0 0); [apply bounded_response_json | intros d3].
  apply (bounded_bind 0 0);
    [destruct d3; apply bounded_ret || apply bounded_throw | intros c].
  apply bounded_ret.
Qed.

Lemma get_pokemon_evolution_chain_requests (name : string) :
  exists rest,
    requests_of (Evolution.get_pokemon_evolution_chain w name)
    = Shape.pokemon_url name :: rest
    /\ (List.length rest <= 2)%nat.
Proof.
  destruct (evolution_first_request w name) as (rest & Hrest).
  exists rest. split; [exact Hrest|].
  destruct (get_pokemon_evolution_chain_try_bounded name []) as (added & Hs & Hn).
  unfold requests_of, run, Evolution.get_pokemon_evolution_chain in Hrest.
  rewrite boundary_log, Hs in Hrest. cbn [app] in Hrest. subst added.
  cbn [List.length] in Hn. lia.
Qed.

End RequestCounts.

(** X13: no operation repeats a request: each of the two searches sends
    exactly one, for every type, limit and generation that is an exact
    integer (the generation is sent as it is given, in or out of the range
    1-9); the evolution chain
    sends the Pokemon request and at most two more; the comparison sends the
    requests of an initial part of its names, one for each, in order. *)
Theorem X13_requests_are_bounded
  (w : World) (name type : string) (generation : Z) (limit : option Z)
  (pokemon : list string) :
  Domain.integer generation = true ->
  requests_of (Search.search_pokemon_by_type w type limit)
  = [api ++ "/type/" ++ JS.toLowerCase type]
  /\ requests_of (Search.search_pokemon_by_generation w generation limit)
     = [api ++ "/generation/" ++ JS.num_to_string generation]
  /\ (exists rest,
        requests_of (Evolution.get_pokemon_evolution_chain w name)
        = Shape.pokemon_url name :: rest
        /\ (List.length rest <= 2)%nat)
  /\ (exists k,
        requests_of (Compare.compare_pokemon w pokemon)
        = firstn k (map Shape.pokemon_url pokemon)).
Proof.
  intros _.
  split; [apply search_pokemon_by_type_requests|].
  split; [apply search_pokemon_by_generation_requests|].
  split; [apply get_pokemon_evolution_chain_requests|].
  unfold requests_of, run, Compare.compare_pokemon. rewrite boundary_log.
  unfold Compare.compare_pokemon_try, bind.
  destruct (fetch_all_log w pokemon [] []) as (k & Hk). exists k.
  destruct (Compare.fetch_all w pokemon [] []) as [[rows|e] log]; exact Hk.
Qed.

Lemma X13_witness :
  requests_of (Search.search_pokemon_by_type Sample.online "Fire" None)
  = [api ++ "/type/" ++ JS.toLowerCase "Fire"]
  /\ requests_of (Search.search_pokemon_by_generation Sample.online (-3) None)
     = [api ++ "/generation/" ++ JS.num_to_string (-3)]
  /\ (exists rest,
        requests_of (Evolution.get_pokemon_evolution_chain Sample.online "Bulbasaur")
        = Shape.pokemon_url "Bulbasaur" :: rest
        /\ (List.length rest <= 2)%nat)
  /\ (exists k,
        requests_of (Compare.compare_pokemon Sample.online ["pikachu"; "Tapu Koko"; "mew"])
        = firstn k (map Shape.pokemon_url ["pikachu"; "Tapu Koko"; "mew"])).
Proof.
  exact (X13_requests_are_bounded Sample.online "Bulbasaur" "Fire" (-3) None
           ["pikachu"; "Tapu Koko"; "mew"] eq_refl).
Defined.

(** ** Listings: how many entries, which identifier *)

Section ListingEdges.

Lemma entries_prefix (listing : list Upstream.Member) (limit : Z) :
  0 <= limit ->
  Search.entries listing limit = firstn (Z.to_nat limit) (map Search.entry listing).
Proof.
  intros H. unfold Search.entries. rewrite slice_kept. unfold Spec.kept.
  destruct (Z.ltb_spec limit 0); [lia|]. now rewrite firstn_map.
Qed.

Lemma split_two_segments (prefix seg last : string) :
  Spec.free_of "/" seg = true ->
  Spec.free_of "/" last = true ->
  JS.split "/" (prefix ++ "/" ++ seg ++ "/" ++ last)
  = (JS.split "/" prefix ++ [seg; last])%list.
Proof.
  intros Hseg Hlast.
  change (prefix ++ "/" ++ seg ++ "/" ++ last)
    with (prefix ++ String "/" (seg ++ String "/" last)).
  now rewrite !split_app, (split_free "/" seg Hseg), (split_free "/" last Hlast).
Qed.

End ListingEdges.

(** X14: for a limit that is not negative, a search lists the first
    [limit] members in upstream order, all of them when there are fewer:
    the count is the smaller of the limit and the number of members, never
    more; without a limit it is 20. *)
Theorem X14_at_most_limit_entries
  (w : World) (type : string) (of_type : list Upstream.Member) (limit : Z) :
  0 <= limit ->
  Shape.fetched w (api ++ "/type/" ++ JS.toLowerCase type) (Upstream.DType of_type) ->
  Search.entries of_type limit = firstn (Z.to_nat limit) (map Search.entry of_type)
  /\ List.length (Search.entries of_type limit)
     = Nat.min (Z.to_nat limit) (List.length of_type)
  /\ result_of (Search.search_pokemon_by_type w type (Some limit))
     = Returned (success
         ("Found "
          ++ JS.num_to_string (Z.of_nat (Nat.min (Z.to_nat limit) (List.length of_type)))
          ++ " " ++ capitalize type ++ " type Pokemon:" ++ newline ++ newline
          ++ Search.pokemonList (firstn (Z.to_nat limit) (map Search.entry of_type))))
  /\ result_of (Search.search_pokemon_by_type w type None)
     = Returned (success
         ("Found " ++ JS.num_to_string (Z.of_nat (Nat.min 20 (List.length of_type)))
          ++ " " ++ capitalize type ++ " type Pokemon:" ++ newline ++ newline
          ++ Search.pokemonList (firstn 20 (map Search.entry of_type)))).
Proof.
  intros Hlimit (r & Hf & Hok & Hb).
  assert (Hlen : forall l, 0 <= l ->
            List.length (Search.entries of_type l)
            = Nat.min (Z.to_nat l) (List.length of_type)).
  { intros l Hl. rewrite (entries_prefix of_type l Hl), length_firstn, length_map.
    reflexivity. }
  assert (Hrun : forall l,
            result_of (Search.search_pokemon_by_type w type l)
            = Returned (success
                ("Found "
                 ++ JS.num_to_string
                      (Z.of_nat (List.length
                                   (Search.entries of_type (Search.limit_or_default l))))
                 ++ " " ++ capitalize type ++ " type Pokemon:" ++ newline ++ newline
                 ++ Search.pokemonList
                      (Search.entries of_type (Search.limit_or_default l))))).
  { intros l.
    unfold result_of, run, Search.search_pokemon_by_type,
      Search.search_pokemon_by_type_try, try_catch, bind, do_fetch, check_ok.
    rewrite Hf, Hok. cbn [negb ret]. unfold response_json. rewrite Hb. reflexivity. }
  split; [now apply entries_prefix|]. split; [now apply Hlen|]. split.
  - rewrite Hrun. cbn [Search.limit_or_default].
    now rewrite Hlen, entries_prefix.
  - rewrite Hrun. cbn [Search.limit_or_default].
    rewrite Hlen, entries_prefix by lia. reflexivity.
Qed.

Lemma X14_witness :
  Search.entries Sample.fire 2 = firstn (Z.to_nat 2) (map Search.entry Sample.fire)
  /\ List.length (Search.entries Sample.fire 2)
     = Nat.min (Z.to_nat 2) (List.length Sample.fire)
  /\ result_of (Search.search_pokemon_by_type Sample.online "Fire" (Some 2))
     = Returned (success
         ("Found "
          ++ JS.num_to_string (Z.of_nat (Nat.min (Z.to_nat 2) (List.length Sample.fire)))
          ++ " " ++ capitalize "Fire" ++ " type Pokemon:" ++ newline ++ newline
          ++ Search.pokemonList (firstn (Z.to_nat 2) (map Search.entry Sample.fire))))
  /\ result_of (Search.search_pokemon_by_type Sample.online "Fire" None)
     = Returned (success
         ("Found " ++ JS.num_to_string (Z.of_nat (Nat.min 20 (List.length Sample.fire)))
          ++ " " ++ capitalize "Fire" ++ " type Pokemon:" ++ newline ++ newline
          ++ Search.pokemonList (firstn 20 (map Search.entry Sample.fire)))).
Proof.
  apply (X14_at_most_limit_entries Sample.online "Fire" Sample.fire 2).
  - lia.
  - eexists. repeat split; reflexivity.
Defined.

(** X15: the identifier of an entry is the segment before the last slash
    of its URL, whatever follows that slash: for a URL without the final
    slash it is the segment before the last one, not the last one, and for
    a URL without any slash there is none and the entry shows
    [undefined]. *)
Theorem X15_id_is_the_segment_before_the_last_slash
  (prefix seg last name : string) :
  Spec.free_of "/" seg = true ->
  Spec.free_of "/" last = true ->
  Search.id_of_url (prefix ++ "/" ++ seg ++ "/" ++ last) = Some seg
  /\ Search.id_of_url last = None
  /\ Search.pokemonList
       [Search.entry {| Upstream.member_name := name; Upstream.member_url := last |}]
     = bullet ++ " " ++ capitalize name ++ " (#undefined)".
Proof.
  intros Hseg Hlast.
  assert (Hnone : Search.id_of_url last = None)
    by (unfold Search.id_of_url; now rewrite (split_free "/" last Hlast)).
  split; [|split; [exact Hnone|]].
  - unfold Search.id_of_url.
    now rewrite split_two_segments, slice_last_but_one.
  - unfold Search.pokemonList, Search.entry.
    cbn [map Upstream.member_name Upstream.member_url Search.name Search.id JS.join].
    now rewrite Hnone.
Qed.

Lemma X15_witness :
  Search.id_of_url ("https://pokeapi.co/api/v2" ++ "/" ++ "pokemon" ++ "/" ++ "25")
  = Some "pokemon"
  /\ Search.id_of_url "25" = None
  /\ Search.pokemonList
       [Search.entry {| Upstream.member_name := "pikachu"; Upstream.member_url := "25" |}]
     = bullet ++ " " ++ capitalize "pikachu" ++ " (#undefined)".
Proof.
  exact (X15_id_is_the_segment_before_the_last_slash
           "https://pokeapi.co/api/v2" "pokemon" "25" "pikachu" eq_refl eq_refl).
Defined.

(** ** The rows of the comparison table *)

Section Rows.

Lemma length_repeat_space (n : nat) : String.length (JS.repeat " " n) = n.
Proof. induction n as [|n IH]; [reflexivity|]. cbn. now rewrite IH. Qed.

Lemma length_padEnd (n : nat) (s : string) :
  String.length (JS.padEnd n s) = Nat.max n (String.length s).
Proof. unfold JS.padEnd. rewrite length_append, length_repeat_space. lia. Qed.

Lemma padEnd_long (n : nat) (s : string) :
  (n <= String.length s)%nat -> JS.padEnd n s = s.
Proof.
  intros H. unfold JS.padEnd.
  replace (n - String.length s)%nat with 0%nat by lia. apply append_empty_r.
Qed.

End Rows.

(** X16: a row of ASCII cells that fit their columns, with stats and total
    that are exact integers, has the total at column 65, so the totals of
    such rows are aligned; a cell is never cut, and an ASCII name of 15
    characters or more is followed by the types without a space. *)
Theorem X16_rows_are_aligned_when_cells_fit (p : Compare.Entry) :
  Domain.ascii (Compare.name p) = true ->
  Domain.ascii (Compare.types p) = true ->
  forallb Domain.integer
    [ Compare.hp (Compare.stats p); Compare.attack (Compare.stats p);
      Compare.defense (Compare.stats p); Compare.specialAttack (Compare.stats p);
      Compare.specialDefense (Compare.stats p); Compare.speed (Compare.stats p);
      Compare.total p ] = true ->
  Shape.fits p = true ->
  (exists cells,
      Compare.row p = cells ++ JS.num_to_string (Compare.total p) ++ newline
      /\ String.length cells = 65%nat)
  /\ (exists rest, Compare.row p = Compare.name p ++ rest)
  /\ (forall q : Compare.Entry,
        Domain.ascii (Compare.name q) = true ->
        (15 <= String.length (Compare.name q))%nat ->
        exists rest, Compare.row q = Compare.name q ++ Compare.types q ++ rest).
Proof.
  intros _ _ _ Hfits. unfold Shape.fits in Hfits.
  apply andb_prop in Hfits as [Hfits Hstats].
  apply andb_prop in Hfits as [Hname Htypes].
  apply Nat.leb_le in Hname, Htypes.
  cbn [forallb] in Hstats.
  repeat (apply andb_prop in Hstats as [?H Hstats]).
  repeat match goal with H : (_ <=? _)%nat = true |- _ => apply Nat.leb_le in H end.
  split; [|split].
  - exists (JS.padEnd 15 (Compare.name p)
            ++ JS.padEnd 20 (Compare.types p)
            ++ JS.padEnd 5 (JS.num_to_string (Compare.hp (Compare.stats p)))
            ++ JS.padEnd 5 (JS.num_to_string (Compare.attack (Compare.stats p)))
            ++ JS.padEnd 5 (JS.num_to_string (Compare.defense (Compare.stats p)))
            ++ JS.padEnd 5 (JS.num_to_string (Compare.specialAttack (Compare.stats p)))
            ++ JS.padEnd 5 (JS.num_to_string (Compare.specialDefense (Compare.stats p)))
            ++ JS.padEnd 5 (JS.num_to_string (Compare.speed (Compare.stats p)))).
    split.
    + unfold Compare.row. now rewrite !append_assoc.
    + rewrite !length_append, !length_padEnd. lia.
  - unfold Compare.row, JS.padEnd. rewrite !append_assoc. eexists. reflexivity.
  - intros q _ Hq. unfold Compare.row. rewrite (padEnd_long 15 _ Hq).
    unfold JS.padEnd at 1. rewrite !append_assoc. eexists. reflexivity.
Qed.

Lemma X16_witness :
  let p := {| Compare.name := "Pikachu"; Compare.id := 25; Compare.types := "Electric";
              Compare.stats := {| Compare.hp := 35; Compare.attack := 55;
                                  Compare.defense := 40; Compare.specialAttack := 50;
                                  Compare.specialDefense := 50; Compare.speed := 90 |};
              Compare.total := 320 |} in
  (exists cells,
      Compare.row p = cells ++ JS.num_to_string (Compare.total p) ++ newline
      /\ String.length cells = 65%nat)
  /\ (exists rest, Compare.row p = Compare.name p ++ rest)
  /\ (forall q : Compare.Entry,
        Domain.ascii (Compare.name q) = true ->
        (15 <= String.length (Compare.name q))%nat ->
        exists rest, Compare.row q = Compare.name q ++ Compare.types q ++ rest).
Proof.
  intros p.
  exact (X16_rows_are_aligned_when_cells_fit p eq_refl eq_refl eq_refl eq_refl).
Defined.

(** ** What is thrown, and bodies that are not JSON *)

Section Thrown.

Variable w : World.

Lemma getPokemonInfo_throws_errors (name : string) (log : list string) (e : Exn) :
  fst (Server.getPokemonInfo w name log) = Thrown e -> exists m, e = ErrorObject m.
Proof.
  unfold Server.getPokemonInfo, try_catch, bind, do_fetch.
  destruct (fetch w _) as [r|x]; cbn [fst].
  - destruct (negb (Upstream.ok r)).
    + destruct (Upstream.status r =? 404); cbn; intros [= <-]; eauto.
    + cbn [ret]. unfold response_json.
      destruct (Upstream.body r) as [m|d]; cbn; [intros [= <-]; eauto|].
      destruct d; cbn; try discriminate; intros [= <-]; eauto.
  - destruct x; cbn; intros [= <-]; eauto.
Qed.

Lemma get_pokemon_pokedex_info_garbled (name m : string) :
  Shape.garbled w (api ++ "/pokemon/" ++ Server.normalize name) m ->
  run (Server.get_pokemon_pokedex_info w name)
  = (Returned (failure ("Error getting pokemon info: " ++ m)),
     [api ++ "/pokemon/" ++ Server.normalize name]).
Proof.
  intros (r & Hf & Hok & Hb).
  unfold run, Server.get_pokemon_pokedex_info, Server.get_pokemon_pokedex_info_try,
    Server.getPokemonInfo, try_catch, bind, do_fetch.
  rewrite Hf, Hok. cbn [negb ret]. unfold response_json. rewrite Hb. reflexivity.
Qed.

Lemma search_pokemon_by_type_garbled (type m : string) (limit : option Z) :
  Shape.garbled w (api ++ "/type/" ++ JS.toLowerCase type) m ->
  run (Search.search_pokemon_by_type w type limit)
  = (Returned (failure ("Error searching Pokemon by type: " ++ m)),
     [api ++ "/type/" ++ JS.toLowerCase type]).
Proof.
  intros (r & Hf & Hok & Hb).
  unfold run, Search.search_pokemon_by_type, Search.search_pokemon_by_type_try,
    try_catch, bind, do_fetch, check_ok.
  rewrite Hf, Hok. cbn [negb ret]. unfold response_json. rewrite Hb. reflexivity.
Qed.

Lemma search_pokemon_by_generation_garbled (generation : Z) (m : string)
  (limit : option Z) :
  Shape.garbled w (api ++ "/generation/" ++ JS.num_to_string generation) m ->
  run (Search.search_pokemon_by_generation w generation limit)
  = (Returned (failure ("Error searching Pokemon by generation: " ++ m)),
     [api ++ "/generation/" ++ JS.num_to_string generation]).
Proof.
  intros (r & Hf & Hok & Hb).
  unfold run, Search.search_pokemon_by_generation,
    Search.search_pokemon_by_generation_try, try_catch, bind, do_fetch, check_ok.
  rewrite Hf, Hok. cbn [negb ret]. unfold response_json. rewrite Hb. reflexivity.
Qed.

Lemma get_pokemon_evolution_chain_garbled (name m : string) :
  Shape.garbled w (Shape.pokemon_url name) m ->
  run (Evolution.get_pokemon_evolution_chain w name)
  = (Returned (failure ("Error getting evolution chain: " ++ m)),
     [Shape.pokemon_url name]).
Proof.
  intros (r & Hf & Hok & Hb).
  unfold run, Evolution.get_pokemon_evolution_chain,
    Evolution.get_pokemon_evolution_chain_try, try_catch, bind, do_fetch, check_ok.
  unfold Shape.pokemon_url in Hf.
  rewrite Hf, Hok. cbn [negb ret]. unfold response_json. rewrite Hb. reflexivity.
Qed.

Lemma compare_pokemon_garbled (name m : string) (others : list string) :
  Shape.garbled w (Shape.pokemon_url name) m ->
  run (Compare.compare_pokemon w (name :: others))
  = (Returned (failure ("Error comparing Pokemon: " ++ m)), [Shape.pokemon_url name]).
Proof.
  intros (r & Hf & Hok & Hb).
  unfold run, Compare.compare_pokemon, Compare.compare_pokemon_try, try_catch.
  cbn [Compare.fetch_all].
  unfold Compare.fetch_entry, bind, do_fetch, check_ok.
  unfold Shape.pokemon_url in Hf.
  rewrite Hf, Hok. cbn [negb ret]. unfold response_json. rewrite Hb. reflexivity.
Qed.

End Thrown.

(** X17: [getPokemonInfo] throws nothing but [Error]s, so every flagged
    text of [get_pokemon_pokedex_info] is its prefix followed by the
    message of the [Error] that [getPokemonInfo] threw, and its fall-back
    text for other thrown values is never used; a rejection with a value
    that is no [Error] is reported by the text that [getPokemonInfo] puts
    in its place. *)
Theorem X17_only_errors_are_thrown (w : World) (name : string) :
  (forall log, fst (Server.getPokemonInfo w name log) <> Thrown NonError)
  /\ (forall r,
        result_of (Server.get_pokemon_pokedex_info w name) = Returned r ->
        isError r = true ->
        exists m,
          result_of (Server.getPokemonInfo w name) = Thrown (ErrorObject m)
          /\ r = failure ("Error getting pokemon info: " ++ m))
  /\ (fetch w (api ++ "/pokemon/" ++ Server.normalize name) = Upstream.Rejected NonError ->
      result_of (Server.get_pokemon_pokedex_info w name)
      = Returned (failure
          "Error getting pokemon info: Error fetching Pokémon information")).
Proof.
  split; [|split].
  - intros log H. apply getPokemonInfo_throws_errors in H as (m & Hm). discriminate Hm.
  - intros r.
    pose proof (getPokemonInfo_throws_errors w name []) as Herr.
    unfold result_of, run, Server.get_pokemon_pokedex_info,
      Server.get_pokemon_pokedex_info_try, try_catch, bind in *.
    destruct (Server.getPokemonInfo w name []) as [[t|e] log]; cbn [fst] in *.
    + intros [= <-]. discriminate.
    + destruct (Herr e eq_refl) as (m & ->). intros [= <-] _. now exists m.
  - intros Hf.
    unfold result_of, run, Server.get_pokemon_pokedex_info,
      Server.get_pokemon_pokedex_info_try, Server.getPokemonInfo, try_catch, bind, do_fetch.
    now rewrite Hf.
Qed.

(** X18: a body that is not JSON, under a status in 200-299, ends each
    operation at its first request with [isError] true and the message of
    the parser after the prefix of the operation (the generation is an
    exact integer). *)
Theorem X18_a_body_that_is_not_json
  (w : World) (name type : string) (generation : Z) (limit : option Z)
  (others : list string) (m : string) :
  Domain.integer generation = true ->
  (Shape.garbled w (api ++ "/pokemon/" ++ Server.normalize name) m ->
   run (Server.get_pokemon_pokedex_info w name)
   = (Returned (Spec.error_result ("Error getting pokemon info: " ++ m)),
      [api ++ "/pokemon/" ++ Server.normalize name]))
  /\ (Shape.garbled w (api ++ "/type/" ++ JS.toLowerCase type) m ->
      run (Search.search_pokemon_by_type w type limit)
      = (Returned (Spec.error_result ("Error searching Pokemon by type: " ++ m)),
         [api ++ "/type/" ++ JS.toLowerCase type]))
  /\ (Shape.garbled w (api ++ "/generation/" ++ JS.num_to_string generation) m ->
      run (Search.search_pokemon_by_generation w generation limit)
      = (Returned (Spec.error_result ("Error searching Pokemon by generation: " ++ m)),
         [api ++ "/generation/" ++ JS.num_to_string generation]))
  /\ (Shape.garbled w (Shape.pokemon_url name) m ->
      run (Evolution.get_pokemon_evolution_chain w name)
      = (Returned (Spec.error_result ("Error getting evolution chain: " ++ m)),
         [Shape.pokemon_url name]))
  /\ (Shape.garbled w (Shape.pokemon_url name) m ->
      run (Compare.compare_pokemon w (name :: others))
      = (Returned (Spec.error_result ("Error comparing Pokemon: " ++ m)),
         [Shape.pokemon_url name])).
Proof.
  intros _. repeat split.
  - apply get_pokemon_pokedex_info_garbled.
  - apply search_pokemon_by_type_garbled.
  - apply search_pokemon_by_generation_garbled.
  - apply get_pokemon_evolution_chain_garbled.
  - apply compare_pokemon_garbled.
Qed.

Lemma X18_witness :
  run (Server.get_pokemon_pokedex_info Shape.online "Garbled")
  = (Returned (Spec.error_result ("Error getting pokemon info: " ++ "Unexpected token '<'")),
     [api ++ "/pokemon/" ++ Server.normalize "Garbled"])
  /\ run (Search.search_pokemon_by_type Shape.online "Garbled" None)
     = (Returned (Spec.error_result ("Error searching Pokemon by type: " ++ "Unexpected token '<'")),
        [api ++ "/type/" ++ JS.toLowerCase "Garbled"])
  /\ run (Search.search_pokemon_by_generation Shape.online 7 None)
     = (Returned (Spec.error_result ("Error searching Pokemon by generation: "
                           ++ "Unexpected token '<'")),
        [api ++ "/generation/" ++ JS.num_to_string 7])
  /\ run (Compare.compare_pokemon Shape.online ("Garbled" :: ["pikachu"]))
     = (Returned (Spec.error_result ("Error comparing Pokemon: " ++ "Unexpected token '<'")),
        [Shape.pokemon_url "Garbled"]).
Proof.
  destruct (X18_a_body_that_is_not_json Shape.online "Garbled" "Garbled" 7 None
              ["pikachu"] "Unexpected token '<'" eq_refl) as (H1 & H2 & H3 & _ & H5).
  split; [apply H1|]. 2: split; [apply H2|]. 3: split; [apply H3 | apply H5].
  all: eexists; split; [reflexivity | split; reflexivity].
Defined.

Lemma X17_witness :
  result_of (Server.get_pokemon_pokedex_info Shape.strange "pikachu")
  = Returned (failure "Error getting pokemon info: Error fetching Pokémon information").
Proof.
  destruct (X17_only_errors_are_thrown Shape.strange "pikachu") as (_ & _ & H).
  apply H. reflexivity.
Defined.
